(** * scformatter: schema resolution and row normalisation

    A shallow embedding of [scformatter.py], the script that converts the
    firewall request spreadsheets of a directory to the Secure Track accept
    format, together with the properties of its schema resolver and of its
    row loop.

    Conventions of the embedding.
    - A Python [str] is a Rocq [string]; each character stands for one code
      point in the range U+0000..U+00FF.  The character classes of Python
      ([str.isspace], [str.isnumeric]) are written out for that range.
    - A cell of a sheet read with [values_only=True] is [None], a [str], an
      [int] or a [bool]; a cell of another type (a [float], a date, a time or
      a duration) is given by its truth value and its text, which is all the
      script reads of it.
    - A Python [dict] used only through look-ups and membership tests is a
      [gmap]; a dict that is iterated ([configs], [service_replace]) is a list
      of items in insertion order.
    - Exceptions are values of [exn]; code that can raise returns a
      [result]. *)

From Stdlib Require Import ZArith Ascii String List Lia Bool.
From stdpp Require Import gmap strings list fin_maps pretty.

Open Scope string_scope.
Open Scope list_scope.

(** ** Exceptions and results *)

Inductive exn : Type :=
| KeyError (key : string)
| IndexError
| UnboundLocalError (var : string)
| OtherException (name : string).

Inductive result (A : Type) : Type :=
| Ok (a : A)
| Raise (e : exn).

Arguments Ok {A} a.
Arguments Raise {A} e.

#[global] Instance result_ret : MRet result := fun A a => Ok a.

#[global] Instance result_bind : MBind result := fun A B f m =>
  match m with
  | Ok a => f a
  | Raise e => Raise e
  end.

(** ** The Python built-ins the script calls *)

Module Py.

(** [ch.isspace()], for the code points below U+0100: the ASCII controls
    TAB..CR and FS..US, the space, NEL (U+0085) and NBSP (U+00A0). *)
Definition isspace (c : ascii) : bool :=
  let n := nat_of_ascii c in
  (((9 <=? n) && (n <=? 13)) || ((28 <=? n) && (n <=? 32))
   || (n =? 133) || (n =? 160))%nat.

(** [s.lstrip()] *)
Fixpoint lstrip (s : string) : string :=
  match s with
  | String c s' => if isspace c then lstrip s' else s
  | EmptyString => EmptyString
  end.

(** [s.rstrip()] *)
Fixpoint rstrip (s : string) : string :=
  match s with
  | String c s' =>
      match rstrip s' with
      | EmptyString => if isspace c then EmptyString else String c EmptyString
      | t => String c t
      end
  | EmptyString => EmptyString
  end.

(** [s.strip()] *)
Definition strip (s : string) : string := rstrip (lstrip s).

(** A character with a Unicode numeric value, for the code points below
    U+0100: the digits 0-9, the superscripts U+00B2, U+00B3, U+00B9 and the
    vulgar fractions U+00BC, U+00BD, U+00BE. *)
Definition numeric_char (c : ascii) : bool :=
  let n := nat_of_ascii c in
  (((48 <=? n) && (n <=? 57))
   || (n =? 178) || (n =? 179) || (n =? 185)
   || ((188 <=? n) && (n <=? 190)))%nat.

Fixpoint all_chars (p : ascii -> bool) (s : string) : bool :=
  match s with
  | String c s' => p c && all_chars p s'
  | EmptyString => true
  end.

(** [bool(s)] for a [str] *)
Definition truthy (s : string) : bool :=
  match s with
  | EmptyString => false
  | String _ _ => true
  end.

(** [s.isnumeric()]: at least one character, all of them numeric. *)
Definition isnumeric (s : string) : bool := truthy s && all_chars numeric_char s.

(** The two alternatives of the pattern ['\n|,']. *)
Definition delimiter (c : ascii) : bool :=
  ((nat_of_ascii c =? 10) || (nat_of_ascii c =? 44))%nat.

(** [re.split('\n|,', s)] *)
Fixpoint re_split (s : string) : list string :=
  match s with
  | EmptyString => [EmptyString]
  | String c s' =>
      if delimiter c then EmptyString :: re_split s'
      else match re_split s' with
           | f :: fs => String c f :: fs
           | [] => [String c EmptyString]
           end
  end.

(** [sep.join(l)] *)
Definition join (sep : string) (l : list string) : string := String.concat sep l.

(** [s.replace(old, new)] for a non-empty [old]: scan from the left,
    [skip] counts the characters of a match still to be dropped. *)
Fixpoint replace_from (old new : string) (skip : nat) (s : string) : string :=
  match s with
  | EmptyString => EmptyString
  | String c s' =>
      match skip with
      | S k => replace_from old new k s'
      | O =>
          if String.prefix old s
          then new +:+ replace_from old new (String.length old - 1) s'
          else String c (replace_from old new 0 s')
      end
  end.

(** [s.replace(old, new)] for the empty [old]: [new] before every character and at the end. *)
Fixpoint intersperse (new : string) (s : string) : string :=
  match s with
  | EmptyString => new
  | String c s' => new +:+ String c (intersperse new s')
  end.

Definition replace (old new : string) (s : string) : string :=
  match old with
  | EmptyString => intersperse new s
  | String _ _ => replace_from old new 0 s
  end.

(** [str(n)] for an [int] *)
Definition str_int (n : Z) : string := pretty n.

(** [s.startswith(prefix)] *)
Definition startswith (prefix s : string) : bool := String.prefix prefix s.

End Py.

(** ** Cells *)

(** What [str(s)] is for a [float], a [datetime], a [date], a [time] or a
    [timedelta]: a text that is not empty and has no white space at either
    end. *)
Definition other_text (text : string) : bool :=
  Py.truthy text && String.eqb (Py.strip text) text.

(** The value of a cell.  [COther] stands for the cells of the other types
    that [openpyxl] yields ([float], [datetime], [date], [time],
    [timedelta]), each given by its truth value [bool(s)] and its text
    [str(s)]: the float 0.0 and the zero duration are the false ones. *)
Inductive cell : Type :=
| CNone
| CStr (s : string)
| CInt (n : Z)
| CBool (b : bool)
| COther (truth : bool) (text : string) (wf : other_text text = true).

(** [bool(s)] for a cell value *)
Definition cell_truthy (s : cell) : bool :=
  match s with
  | CNone => false
  | CStr t => Py.truthy t
  | CInt n => negb (n =? 0)%Z
  | CBool b => b
  | COther truth _ _ => truth
  end.

(** [str(s)] for a cell value *)
Definition cell_str (s : cell) : string :=
  match s with
  | CNone => "None"
  | CStr t => t
  | CInt n => Py.str_int n
  | CBool b => if b then "True" else "False"
  | COther _ text _ => text
  end.

(** [safe_strip]:
    [return s.strip() if isinstance(s, str) else str(s) if s else '']. *)
Definition safe_strip (s : cell) : string :=
  match s with
  | CStr t => Py.strip t
  | _ => if cell_truthy s then cell_str s else EmptyString
  end.

(** ** Configuration *)

Definition REQUIRED_CONFIGS : gset string :=
  list_to_set ["SRC"; "DST"; "SRV"; "ADD"; "RM"].

(** The dict read from [config.json]: the entries that map a key to the
    header text of a column, in the order of the file, and the entry
    [service_replace] (the only key of [COMPLEX_CONFIGS]), an object of
    pattern and replacement strings, when it is there. *)
Record config : Type := {
  headers : list (string * string);
  service_replace : option (list (string * string))
}.

Definition header_map (configs : config) : gmap string string :=
  list_to_map (headers configs).

(** [key in configs], for a key other than [service_replace] *)
Definition in_configs (configs : config) (key : string) : bool :=
  bool_decide (is_Some (header_map configs !! key)).

(** [configs[key]], for a key other than [service_replace] *)
Definition configs_get (configs : config) (key : string) : result string :=
  match header_map configs !! key with
  | Some val => Ok val
  | None => Raise (KeyError key)
  end.

(** [configs["service_replace"]] *)
Definition rules_get (configs : config) : result (list (string * string)) :=
  match service_replace configs with
  | Some rules => Ok rules
  | None => Raise (KeyError "service_replace")
  end.

(** [{val:key for key, val in configs.items() if key not in COMPLEX_CONFIGS}]:
    a later item overwrites an earlier one with the same header text. *)
Definition reverse_configs (configs : config) : gmap string string :=
  foldl (fun m kv => <[kv.2 := kv.1]> m) ∅ (headers configs).

(** [{key:val for key, val in configs.items() if key in REQUIRED_CONFIGS}] *)
Definition required_configs (configs : config) : gmap string string :=
  list_to_map (List.filter (fun kv => bool_decide (kv.1 ∈ REQUIRED_CONFIGS))
                           (headers configs)).

(** ** Schema resolution (the head of the sheet loop) *)

(** A sheet, as [iter_rows(values_only=True)] yields it from row 1. *)
Definition sheet : Type := list (list cell).

(** [enumerate(l)] *)
Definition enumerate {A : Type} (l : list A) : list (nat * A) := imap pair l.

(** The cells of rows 1 and 2, each stripped and paired with its column
    index, row 1 before row 2 ([chain.from_iterable]). *)
Definition header_cells (input_sheet : sheet) : list (nat * string) :=
  concat (map (fun row => enumerate (map safe_strip row)) (take 2 input_sheet)).

(** One item of the dict comprehension that builds [cfgs]. *)
Definition bind_column (reverse : gmap string string)
    (cfgs : gmap string nat) (item : nat * string) : gmap string nat :=
  match reverse !! item.2 with
  | Some key => <[key := item.1]> cfgs
  | None => cfgs
  end.

(** [cfgs = {reverse_configs[cell]:idx for idx, cell in rows
            if cell in reverse_configs}] *)
Definition build_cfgs (reverse : gmap string string)
    (rows : list (nat * string)) : gmap string nat :=
  foldl (bind_column reverse) ∅ rows.

(** [len(cfgs.keys() & REQUIRED_CONFIGS) != len(REQUIRED_CONFIGS)] *)
Definition misses_required (cfgs : gmap string nat) : bool :=
  negb (size (dom cfgs ∩ REQUIRED_CONFIGS) =? size REQUIRED_CONFIGS)%nat.

(** ** The body of the row loop *)

(** The variables a row starts with:
    [error_msg, tmp, values = [], [], defaultdict(str)]. *)
Record locals : Type := {
  error_msg : list string;
  tmp : list string;
  values : gmap string string
}.

Definition fresh : locals := {| error_msg := []; tmp := []; values := ∅ |}.

(** [values[key] = val] *)
Definition set_value (key val : string) (l : locals) : locals :=
  {| error_msg := error_msg l; tmp := tmp l; values := <[key := val]> (values l) |}.

(** [values[key]], the default of [defaultdict(str)] being the empty text *)
Definition get_value (l : locals) (key : string) : string :=
  default EmptyString (values l !! key).

(** [error_msg.append(msg)] *)
Definition add_error (msg : string) (l : locals) : locals :=
  {| error_msg := error_msg l ++ [msg]; tmp := tmp l; values := values l |}.

(** [tmp.append(val)] *)
Definition add_tmp (val : string) (l : locals) : locals :=
  {| error_msg := error_msg l; tmp := tmp l ++ [val]; values := values l |}.

(** [row[cfgs[key]]]: [cfgs] is a plain dict and [row] a tuple. *)
Definition cell_at (cfgs : gmap string nat) (row : list cell) (key : string)
    : result cell :=
  idx ← (match cfgs !! key with
         | Some idx => Ok idx
         | None => Raise (KeyError key)
         end);
  match row !! idx with
  | Some c => Ok c
  | None => Raise IndexError
  end.

(** [f"Miss '{configs[key]}'"] *)
Definition miss_msg (header : string) : string := "Miss '" +:+ header +:+ "'".

(** [f"Have Both ('{configs["ADD"]}'&'{configs["RM"]}')"] *)
Definition both_msg (add rm : string) : string :=
  "Have Both ('" +:+ add +:+ "'&'" +:+ rm +:+ "')".

(** The [SRC] block and the [DST] block, which differ in the key only. *)
Definition address_field (configs : config) (cfgs : gmap string nat)
    (row : list cell) (key : string) (l : locals) : result locals :=
  c ← cell_at cfgs row key;
  let val := safe_strip c in
  if Py.truthy val
  then Ok (set_value key (Py.join "; " (Py.re_split val)) l)
  else header ← configs_get configs key; Ok (add_error (miss_msg header) l).

(** [f"TCP {srv}" if srv.isnumeric() else srv] *)
Definition tag_port (srv : string) : string :=
  if Py.isnumeric srv then "TCP " +:+ srv else srv.

(** [[... for srv in srvs if srv]] over [re.split('\n|,', val)] *)
Definition service_fragments (val : string) : list string :=
  map tag_port (List.filter Py.truthy (Py.re_split val)).

(** The loop over [configs["service_replace"].items()]. *)
Definition apply_rules (rules : list (string * string)) (srv : string) : string :=
  foldl (fun acc rule => Py.replace rule.1 rule.2 acc) srv rules.

(** The [SRV] block. *)
Definition service_field (configs : config) (cfgs : gmap string nat)
    (row : list cell) (l : locals) : result locals :=
  c ← cell_at cfgs row "SRV";
  let val := safe_strip c in
  if Py.truthy val
  then
    let joined := Py.join "; " (service_fragments val) in
    rules ← rules_get configs;
    Ok (set_value "SRV" (apply_rules rules joined) l)
  else header ← configs_get configs "SRV"; Ok (add_error (miss_msg header) l).

(** The [ADD]/[RM] block. *)
Definition action_field (configs : config) (cfgs : gmap string nat)
    (row : list cell) (l : locals) : result locals :=
  a ← cell_at cfgs row "ADD";
  r ← cell_at cfgs row "RM";
  let add_true := safe_strip a in
  let rm_true := safe_strip r in
  if Py.truthy add_true && Py.truthy rm_true
  then
    add ← configs_get configs "ADD";
    rm ← configs_get configs "RM";
    Ok (add_error (both_msg add rm) l)
  else if Py.truthy add_true || Py.truthy rm_true
  then Ok (set_value "ACT" (if Py.truthy add_true then "accept" else "remove") l)
  else Ok (set_value "ACT" EmptyString l).

(** The [USG] block and the [CMT] block. *)
Definition note_field (cfgs : gmap string nat) (row : list cell)
    (key : string) (l : locals) : result locals :=
  c ← cell_at cfgs row key;
  let val := safe_strip c in
  if Py.truthy val then Ok (add_tmp val l) else Ok l.

(** The five values written to the output sheet, columns 1 to 5. *)
Record canonical_row : Type := {
  source : string;
  destination : string;
  service : string;
  action : string;
  comment : string
}.

(** What the loop does with a row: write it, [continue] in silence, or
    print the reasons and [continue]. *)
Inductive outcome : Type :=
| Accepted (out : canonical_row)
| Skipped
| Rejected (reasons : list string).

(** The [if error_msg and len(error_msg) == 3 / elif error_msg] test and
    the five [output_sheet.cell] calls. *)
Definition decide_row (l : locals) : outcome :=
  match error_msg l with
  | [] =>
      Accepted {| source := get_value l "SRC";
                  destination := get_value l "DST";
                  service := get_value l "SRV";
                  action := get_value l "ACT";
                  comment := get_value l "CMT" |}
  | _ :: _ =>
      if (length (error_msg l) =? 3)%nat then Skipped
      else Rejected (error_msg l)
  end.

(** One iteration of the row loop, up to its effect. *)
Definition row_body (configs : config) (cfgs : gmap string nat)
    (row : list cell) : result outcome :=
  l ← address_field configs cfgs row "SRC" fresh;
  l ← address_field configs cfgs row "DST" l;
  l ← service_field configs cfgs row l;
  l ← action_field configs cfgs row l;
  l ← note_field cfgs row "USG" l;
  l ← note_field cfgs row "CMT" l;
  Ok (decide_row (set_value "CMT" (Py.join "|" (tmp l)) l)).

(** ** A configuration and a sheet to run the definitions on *)

Module Sample.

Definition configs : config :=
  {| headers := [("SRC", "Source"); ("DST", "Destination"); ("SRV", "Service");
                 ("ADD", "Add"); ("RM", "Remove"); ("USG", "Usage");
                 ("CMT", "Comment")];
     service_replace := Some [("TCP 443", "https")] |}.

Definition header_row : list cell :=
  [CStr "Source"; CStr "Destination"; CStr "Service"; CStr "Add";
   CStr "Remove"; CStr "Usage"; CStr "Comment"].

Definition cfgs : gmap string nat :=
  build_cfgs (reverse_configs configs) (header_cells [header_row]).

Definition data_row : list cell :=
  [CStr "10.0.0.1
10.0.0.2"; CStr "10.0.0.5"; CStr "80,443"; CStr "yes"; CNone;
   CStr "build access"; CStr "ticket#123"].

(** The same headers with no substitution rule. *)
Definition no_rules : config :=
  {| headers := headers configs; service_replace := Some [] |}.

(** A row of the sheet from its first five cells, the usage and the
    comment cell being empty. *)
Definition row_of (src dst srv add rm : cell) : list cell :=
  [src; dst; srv; add; rm; CNone; CNone].

End Sample.


(** ** The run: console, workbooks and the three loops *)

(** One [print] call, with the data it formats. *)
Inductive line : Type :=
| ErrorLines (error_msg : list string)
| ProcessingFile (file_path : string)
| SheetSkipped (input_sheet_name : string) (miss_configs : list string)
| SheetMeet (input_sheet_name : string) (cfgs : gmap string nat)
| RowSkipped (input_row_idx : nat) (error_msg : list string)
| FileError (file_path : string).

(** What [openpyxl.load_workbook] does with a path: it returns the sheets
    of the workbook, in the order of [sheetnames], it raises
    [InvalidFileException] (a file whose extension it does not support), or
    it raises another exception ([BadZipFile] for a file that is not a
    workbook inside, [OSError] for a file that cannot be read). *)
Inductive load_result : Type :=
| Loaded (sheets : list (string * sheet))
| InvalidFile
| LoadError (e : exn).

Record world : Type := {
  console : list line;
  loaded : list string;
  input_workbook_bound : bool;
  output_workbook : list (list canonical_row);
  saved : option (string * list (list canonical_row))
}.

Definition initial : world :=
  {| console := []; loaded := []; input_workbook_bound := false;
     output_workbook := []; saved := None |}.

Definition M (A : Type) : Type := world -> result A * world.

#[global] Instance M_ret : MRet M := fun A a w => (Ok a, w).

#[global] Instance M_bind : MBind M := fun A B f m w =>
  match m w with
  | (Ok a, w') => f a w'
  | (Raise e, w') => (Raise e, w')
  end.

Definition lift {A : Type} (r : result A) : M A := fun w => (r, w).

Definition print (ln : line) : M unit := fun w =>
  (Ok tt, {| console := console w ++ [ln]; loaded := loaded w;
             input_workbook_bound := input_workbook_bound w;
             output_workbook := output_workbook w; saved := saved w |}).

(** [input_workbook = openpyxl.load_workbook(file_path, read_only=True)],
    once the call has returned *)
Definition bind_input_workbook (file_path : string) : M unit := fun w =>
  (Ok tt, {| console := console w; loaded := loaded w ++ [file_path];
             input_workbook_bound := true;
             output_workbook := output_workbook w; saved := saved w |}).

(** [input_workbook.close()] in the [finally] clause *)
Definition close_input_workbook : M unit := fun w =>
  if input_workbook_bound w then (Ok tt, w)
  else (Raise (UnboundLocalError "input_workbook"), w).

(** [output_sheet = output_workbook.create_sheet()] *)
Definition create_sheet : M unit := fun w =>
  (Ok tt, {| console := console w; loaded := loaded w;
             input_workbook_bound := input_workbook_bound w;
             output_workbook := output_workbook w ++ [[]]; saved := saved w |}).

Definition append_last (out : canonical_row) (sheets : list (list canonical_row))
    : list (list canonical_row) :=
  match reverse sheets with
  | last :: before => reverse before ++ [last ++ [out]]
  | [] => [[out]]
  end.

(** [output_row_idx += 1] and the five [output_sheet.cell] calls *)
Definition write_row (out : canonical_row) : M unit := fun w =>
  (Ok tt, {| console := console w; loaded := loaded w;
             input_workbook_bound := input_workbook_bound w;
             output_workbook := append_last out (output_workbook w);
             saved := saved w |}).

(** [output_workbook.save(output)].  The sheet that a new workbook comes
    with was removed when the output workbook was made, and [openpyxl] does
    not write a workbook that has no sheet: [save] then raises [IndexError]
    (at least one sheet must be visible). *)
Definition save (output : string) : M unit := fun w =>
  match output_workbook w with
  | [] => (Raise IndexError, w)
  | _ :: _ =>
      (Ok tt, {| console := console w; loaded := loaded w;
                 input_workbook_bound := input_workbook_bound w;
                 output_workbook := output_workbook w;
                 saved := Some (output, output_workbook w) |})
  end.

Fixpoint for_each {A : Type} (body : A -> M unit) (l : list A) : M unit :=
  match l with
  | [] => mret tt
  | x :: rest => body x ;; for_each body rest
  end.

(** The effect of one row, [input_row_idx] being its number in the sheet. *)
Definition row_step (configs : config) (cfgs : gmap string nat)
    (item : nat * list cell) : M unit :=
  o ← lift (row_body configs cfgs item.2);
  match o with
  | Accepted out => write_row out
  | Skipped => mret tt
  | Rejected reasons => print (RowSkipped item.1 reasons)
  end.

(** [enumerate(input_sheet.iter_rows(min_row=2, values_only=True), 2)] *)
Definition data_rows (input_sheet : sheet) : list (nat * list cell) :=
  imap (fun i row => (i + 2, row)) (drop 1 input_sheet).

(** [[required_configs[key] for key in miss]] *)
Fixpoint miss_configs_of (required : gmap string string) (miss : list string)
    : result (list string) :=
  match miss with
  | [] => Ok []
  | key :: rest =>
      val ← (match required !! key with
             | Some val => Ok val
             | None => Raise (KeyError key)
             end);
      vals ← miss_configs_of required rest;
      Ok (val :: vals)
  end.

(** The body of the sheet loop. *)
Definition sheet_body (configs : config) (item : string * sheet) : M unit :=
  let cfgs := build_cfgs (reverse_configs configs) (header_cells item.2) in
  if misses_required cfgs
  then
    let miss := elements (REQUIRED_CONFIGS ∖ dom cfgs) in
    miss_configs ← lift (miss_configs_of (required_configs configs) miss);
    print (SheetSkipped item.1 miss_configs)
  else
    print (SheetMeet item.1 cfgs) ;;
    create_sheet ;;
    for_each (row_step configs cfgs) (data_rows item.2).

(** The body of the file loop: [try], [except InvalidFileException] and
    [finally].  An exception of the sheet loop passes through [finally],
    where [input_workbook] is bound, and leaves the function.  So does an
    exception of [load_workbook] that the [except] clause does not name,
    unless [finally] raises first. *)
Definition file_body (load_workbook : string -> load_result) (configs : config)
    (file_path : string) : M unit :=
  print (ProcessingFile file_path) ;;
  match load_workbook file_path with
  | Loaded sheets =>
      bind_input_workbook file_path ;;
      for_each (sheet_body configs) sheets ;;
      close_input_workbook
  | InvalidFile =>
      print (FileError file_path) ;;
      close_input_workbook
  | LoadError e =>
      close_input_workbook ;;
      lift (Raise e)
  end.

Definition config_error : string :=
  "ERROR: configs is not correct. SRC, DST, SRV are required.".
Definition inputs_error : string :=
  "ERROR: No Excel files found in the given path.".
Definition output_error : string := "ERROR: output file is Empty".

(** [bool(output)], [output] being [None] or a [str] *)
Definition output_truthy (output : option string) : bool :=
  match output with
  | Some name => Py.truthy name
  | None => false
  end.

(** The three validations at the head of [convert_excels]. *)
Definition validate (configs : config) (inputs : list string)
    (output : option string) : list string :=
  (if forallb (in_configs configs) (elements REQUIRED_CONFIGS)
   then [] else [config_error])
  ++ (match inputs with [] => [inputs_error] | _ :: _ => [] end)
  ++ (if output_truthy output then [] else [output_error]).

(** [convert_excels(configs, inputs, output)] *)
Definition convert_excels (load_workbook : string -> load_result)
    (configs : config) (inputs : list string) (output : option string) : M unit :=
  match validate configs inputs output with
  | (_ :: _) as error_msg => print (ErrorLines error_msg)
  | [] =>
      for_each (file_body load_workbook configs) inputs ;;
      save (default EmptyString output)
  end.

(** ** Notions used to state the properties *)

(** The keys [REQUIRED_CONFIGS] are all in [configs]. *)
Definition configured (configs : config) : Prop :=
  forall key, key ∈ REQUIRED_CONFIGS -> is_Some (header_map configs !! key).



(** [c] occurs in [s]. *)
Definition occurs (c : ascii) (s : string) : Prop := In c (list_ascii_of_string s).

(** [s] without its newlines and commas. *)
Fixpoint drop_delimiters (s : string) : string :=
  match s with
  | EmptyString => EmptyString
  | String c s' =>
      if Py.delimiter c then drop_delimiters s' else String c (drop_delimiters s')
  end.


(** A second sheet and its rows: the five required columns only. *)
Module Narrow.

Definition header_row : list cell :=
  [CStr "Source"; CStr "Destination"; CStr "Service"; CStr "Add"; CStr "Remove"].

Definition data_row : list cell :=
  [CStr "10.0.0.1"; CStr "10.0.0.5"; CStr "80"; CStr "yes"; CNone].

Definition input_sheet : sheet := [header_row; data_row].

Definition cfgs : gmap string nat :=
  build_cfgs (reverse_configs Sample.configs) (header_cells input_sheet).

Definition load_workbook (file_path : string) : load_result :=
  Loaded [("Sheet1", input_sheet)].

End Narrow.

(** A sheet in which the header text of the source column comes twice:
    at column 0 of row 1 and at column 3 of row 2. *)
Module Twice.

Definition row_two : list cell :=
  [CStr "10.0.0.1"; CStr "10.0.0.5"; CStr "80"; CStr "Source"; CNone; CNone; CNone].

Definition input_sheet : sheet := [Sample.header_row; row_two].

Definition cfgs : gmap string nat :=
  build_cfgs (reverse_configs Sample.configs) (header_cells input_sheet).

End Twice.

(** A configuration without the key [RM]. *)
Definition no_remove : config :=
  {| headers := [("SRC", "Source"); ("DST", "Destination"); ("SRV", "Service");
                 ("ADD", "Add"); ("USG", "Usage"); ("CMT", "Comment")];
     service_replace := Some [] |}.

(** ** Notions used to state the further properties *)

(** The reason a blank core cell leaves in [error_msg], none otherwise. *)
Definition miss_if (val header : string) : list string :=
  if Py.truthy val then [] else [miss_msg header].

(** The reason two set flags leave in [error_msg], none otherwise. *)
Definition both_if (add_true rm_true add rm : string) : list string :=
  if Py.truthy add_true && Py.truthy rm_true then [both_msg add rm] else [].

(** The seven keys the row loop looks up in [cfgs]. *)
Definition ROW_KEYS : list string :=
  ["SRC"; "DST"; "SRV"; "ADD"; "RM"; "USG"; "CMT"].

(** The sample headers in a configuration that has no [service_replace]. *)
Definition without_rules : config :=
  {| headers := headers Sample.configs; service_replace := None |}.

(** The rows that a list of outcomes writes to the output sheet. *)
Definition written (outcomes : list outcome) : list canonical_row :=
  flat_map (fun o => match o with Accepted out => [out] | _ => [] end) outcomes.

(** The lines that a list of outcomes prints, the first outcome being that
    of row [input_row_idx]. *)
Fixpoint reported (input_row_idx : nat) (outcomes : list outcome) : list line :=
  match outcomes with
  | [] => []
  | o :: rest =>
      (match o with
       | Rejected reasons => [RowSkipped input_row_idx reasons]
       | _ => []
       end) ++ reported (S input_row_idx) rest
  end.

(** The world after [lines] were printed and [sheets] took the place of the
    output workbook. *)
Definition after (w : world) (lines : list line)
    (sheets : list (list canonical_row)) : world :=
  {| console := console w ++ lines; loaded := loaded w;
     input_workbook_bound := input_workbook_bound w;
     output_workbook := sheets; saved := saved w |}.


(** A configuration in which the add flag and the remove flag are given
    the same header text. *)
Definition shared_flag : config :=
  {| headers := [("SRC", "Source"); ("DST", "Destination"); ("SRV", "Service");
                 ("ADD", "Flag"); ("RM", "Flag")];
     service_replace := Some [] |}.

(** A sheet with an accepted, a blank, a partial and a second accepted row. *)
Module Mixed.

Definition input_sheet : sheet :=
  [Sample.header_row;
   Sample.row_of (CStr "a") (CStr "b") (CStr "80") (CStr "x") CNone;
   Sample.row_of CNone CNone CNone CNone CNone;
   Sample.row_of (CStr "c") CNone (CStr "443") CNone CNone;
   Sample.row_of (CStr "d") (CStr "e") (CStr "f") CNone (CStr "x")].

Definition cfgs : gmap string nat :=
  build_cfgs (reverse_configs Sample.configs) (header_cells input_sheet).

Definition first_out : canonical_row :=
  {| source := "a"; destination := "b"; service := "TCP 80";
     action := "accept"; comment := EmptyString |}.

Definition second_out : canonical_row :=
  {| source := "d"; destination := "e"; service := "f";
     action := "remove"; comment := EmptyString |}.

End Mixed.

(** A sheet whose second data row is too short. *)
Module Broken.

Definition before : list (list cell) :=
  [Sample.row_of (CStr "a") (CStr "b") (CStr "80") (CStr "x") CNone].

Definition short_row : list cell := [CStr "c"; CStr "d"].

Definition rest : list (list cell) :=
  [Sample.row_of (CStr "e") (CStr "f") (CStr "g") CNone CNone].

Definition input_sheet : sheet := Sample.header_row :: before ++ short_row :: rest.

Definition cfgs : gmap string nat :=
  build_cfgs (reverse_configs Sample.configs) (header_cells input_sheet).

End Broken.

(** A directory in which every file holds the sheet [Mixed.input_sheet],
    and one in which no file is a workbook. *)
Definition mixed_workbooks (file_path : string) : load_result :=
  Loaded [("Sheet1", Mixed.input_sheet)].

Definition no_workbooks (file_path : string) : load_result := InvalidFile.

(** The two lines of a file that cannot be opened. *)
Definition invalid_lines (file_path : string) : list line :=
  [ProcessingFile file_path; FileError file_path].

(** The world after a workbook without any sheet was loaded. *)
Definition one_loaded : world :=
  {| console := [ProcessingFile "a.xlsx"]; loaded := ["a.xlsx"];
     input_workbook_bound := true; output_workbook := []; saved := None |}.

(** [old in s] *)
Fixpoint contains (old s : string) : bool :=
  String.prefix old s
  || match s with
     | String _ s' => contains old s'
     | EmptyString => false
     end.

(** ** The functions around [convert_excels] *)

Definition CONFIG_PATH : string := "config.json".

Definition EXTS : list string := ["*.xlsx"; "*.xls"].

(** What [open(config_path)] and [json.load] come to: one of the three
    [except] clauses of [get_configs], or the dict of the file. *)
Inductive config_file : Type :=
| FileNotFoundError
| JSONDecodeError
| OtherError (e : string)
| Parsed (configs : config).

(** The dict [{}]. *)
Definition no_configs : config := {| headers := []; service_replace := None |}.

(** [get_configs(config_path)]: the dict it returns and the lines it
    prints. *)
Definition get_configs (config_path : string) (file : config_file)
    : config * list string :=
  match file with
  | Parsed configs => (configs, [])
  | FileNotFoundError =>
      (no_configs,
       ["ERROR: Configuration file '" +:+ config_path +:+ "' not found."])
  | JSONDecodeError =>
      (no_configs, ["ERROR: Invalid JSON format in '" +:+ config_path +:+ "'."])
  | OtherError e => (no_configs, ["ERROR: " +:+ e])
  end.

Section Directory.

(** [glob.glob(os.path.join(current_dir, ext))] and [os.path.basename]. *)
Variable get_fullpath_with_ext : string -> list string.
Variable basename : string -> string.

Definition filter_noncache_file (file : string) : bool :=
  negb (Py.startswith "~$" (basename file)).

(** [get_files(exts)]: the files of every extension, chained in the order
    of [exts], that [filter_noncache_file] keeps. *)
Definition get_files (exts : list string) : list string :=
  List.filter filter_noncache_file (concat (map get_fullpath_with_ext exts)).

End Directory.

(** [generate_filename(ext)], [isoformat] being the text of
    [datetime.now().replace(microsecond=0).isoformat()]. *)
Definition generate_filename (isoformat ext : string) : string :=
  Py.replace ":" "_" isoformat +:+ "." +:+ ext.

(** What the script finds when it starts. *)
Record environment : Type := {
  env_cwd : string;
  env_config : config_file;
  env_glob : string -> list string;
  env_basename : string -> string;
  env_now : string;
  env_load : string -> load_result
}.

(** What a run of the script leaves: the lines printed before
    [convert_excels], the result and the world of [convert_excels], and
    whether the closing [input] prompt was reached. *)
Record run : Type := {
  printed : list string;
  converted : result unit * world;
  prompted : bool
}.

(** The [__main__] block. *)
Definition main (env : environment) : run :=
  let keywords := get_configs CONFIG_PATH (env_config env) in
  let excels := get_files (env_glob env) (env_basename env) EXTS in
  let result := generate_filename (env_now env) "xlsx" in
  let r := convert_excels (env_load env) keywords.1 excels (Some result) initial in
  {| printed := ("Current Directory: " +:+ env_cwd env) :: keywords.2;
     converted := r;
     prompted := match r.1 with Ok _ => true | Raise _ => false end |}.

(** ** The log file *)

Module TeeOutput.

(** The character [\x1B]. *)
Definition ESC : ascii := ascii_of_nat 27.

Definition between (lo hi : nat) (c : ascii) : bool :=
  ((lo <=? nat_of_ascii c) && (nat_of_ascii c <=? hi))%nat.

(** The class [[@-Z\\-_]]: the range from [@] to [Z] and the range from the
    backslash to [_]. *)
Definition single_char (c : ascii) : bool := between 64 90 c || between 92 95 c.

(** The class [[0-?]]. *)
Definition param_char (c : ascii) : bool := between 48 63 c.

(** The class [[ -/]]. *)
Definition inter_char (c : ascii) : bool := between 32 47 c.

(** The class [[@-~]]. *)
Definition final_char (c : ascii) : bool := between 64 126 c.

(** The longest prefix of characters of a class, dropped. *)
Fixpoint skip_while (p : ascii -> bool) (s : string) : string :=
  match s with
  | String c s' => if p c then skip_while p s' else s
  | EmptyString => EmptyString
  end.

(** The pattern [(?:[@-Z\\-_]|\[[0-?]*[ -/]*[@-~])] matched at the start of
    [s]: what follows the match, if there is one.  The three classes of the
    second alternative have no character in common, so a star that gives a
    character back cannot make the next item match: the greedy match is the
    only one. *)
Definition escape_tail (s : string) : option string :=
  match s with
  | String c s' =>
      if single_char c then Some s'
      else if Ascii.eqb c "["
      then match skip_while inter_char (skip_while param_char s') with
           | String d rest => if final_char d then Some rest else None
           | EmptyString => None
           end
      else None
  | EmptyString => None
  end.

(** [ansi_escape.sub('', text)]: scan from the left, [skip] counts the
    characters of a match still to be dropped. *)
Fixpoint strip_from (skip : nat) (text : string) : string :=
  match text with
  | EmptyString => EmptyString
  | String c text' =>
      match skip with
      | S k => strip_from k text'
      | O =>
          if Ascii.eqb c ESC
          then match escape_tail text' with
               | Some rest =>
                   strip_from (String.length text' - String.length rest) text'
               | None => String c (strip_from 0 text')
               end
          else String c (strip_from 0 text')
      end
  end.

(** [strip_ansi(text)] *)
Definition strip_ansi (text : string) : string := strip_from 0 text.

(** The text written so far to the terminal and to the log file. *)
Record tee : Type := {
  terminal : string;
  log_file : string
}.

(** [write(message)], [timestamp] being the text of
    [datetime.now().strftime('[%Y-%m-%d %H:%M:%S.%f] ')]. *)
Definition write (timestamp message : string) (t : tee) : tee :=
  let cleaned_message := strip_ansi message in
  {| terminal := terminal t +:+ message;
     log_file :=
       log_file t
       +:+ (if Py.truthy (Py.strip cleaned_message)
            then timestamp +:+ cleaned_message
            else cleaned_message) |}.

(** A control sequence: [\x1B], [[], parameter characters and a final
    character. *)
Definition csi (params : string) (final : ascii) : string :=
  String ESC (String "[" (params +:+ String final EmptyString)).

End TeeOutput.

(** A directory with one workbook and the lock file of a workbook that is
    open in the spreadsheet program. *)
Module Folder.

Definition get_fullpath_with_ext (ext : string) : list string :=
  if String.eqb ext "*.xlsx" then ["~$a.xlsx"; "a.xlsx"] else [].

Definition only_lock_files (ext : string) : list string :=
  if String.eqb ext "*.xlsx" then ["~$a.xlsx"] else ["~$b.xls"].

Definition basename (file : string) : string := file.

Definition env (file : config_file) (glob : string -> list string) : environment :=
  {| env_cwd := "/data"; env_config := file; env_glob := glob;
     env_basename := basename; env_now := "2024-05-06T07:08:09";
     env_load := mixed_workbooks |}.

End Folder.

(** A configuration in which the header text of the source column ends
    with a space. *)
Definition padded : config :=
  {| headers := [("SRC", "Source "); ("DST", "Destination"); ("SRV", "Service");
                 ("ADD", "Add"); ("RM", "Remove")];
     service_replace := Some [] |}.

(** [m] adds to the opened workbooks only files that satisfy [ok]. *)
Definition opens_only {A : Type} (ok : string -> Prop) (m : M A) : Prop :=
  forall w, Forall ok (loaded w) -> Forall ok (loaded (m w).2).

(** The character [\x1B] is not in [text]. *)
Definition no_escape (text : string) : bool :=
  Py.all_chars (fun c => negb (Ascii.eqb c TeeOutput.ESC)) text.

(** A directory in which every workbook has one sheet, without the headers
    of the configuration; one in which every file is a corrupt archive; and
    one with a file of an extension that is not supported, a corrupt archive
    and a workbook. *)
Definition headless_workbooks (file_path : string) : load_result :=
  Loaded [("Sheet1", [[CStr "Name"; CStr "Address"]; [CStr "a"; CStr "b"]])].

Definition corrupt_workbooks (file_path : string) : load_result :=
  LoadError (OtherException "BadZipFile").

Definition second_corrupt (file_path : string) : load_result :=
  if String.eqb file_path "a.xls" then InvalidFile
  else if String.eqb file_path "b.xlsx" then LoadError (OtherException "BadZipFile")
  else Loaded [("Sheet1", Mixed.input_sheet)].

(** * Properties *)

(** ** The definitions on concrete inputs *)

Example strip_both_ends : Py.strip "  Source 	" = "Source".
Proof. reflexivity. Qed.

Example split_keeps_empty : Py.re_split "a,,b" = ["a"; EmptyString; "b"].
Proof. reflexivity. Qed.

Example replace_all_matches : Py.replace "aa" "b" "aaaaa" = "bba".
Proof. reflexivity. Qed.

Example replace_empty_pattern : Py.replace EmptyString "-" "abc" = "-a-b-c-".
Proof. reflexivity. Qed.

Example str_of_port : safe_strip (CInt 443) = "443".
Proof. reflexivity. Qed.

Example float_cell : safe_strip (COther true "443.0" eq_refl) = "443.0".
Proof. reflexivity. Qed.

Example float_zero_cell : safe_strip (COther false "0.0" eq_refl) = EmptyString.
Proof. reflexivity. Qed.

Example date_cell :
  safe_strip (COther true "2024-05-06 00:00:00" eq_refl) = "2024-05-06 00:00:00".
Proof. reflexivity. Qed.

Example no_sheet_no_file :
  convert_excels headless_workbooks Sample.configs ["a.xlsx"] (Some "out.xlsx") initial
  = (Raise IndexError,
     {| console := [ProcessingFile "a.xlsx"; SheetSkipped "Sheet1"
                      (map (fun key => default EmptyString
                                         (header_map Sample.configs !! key))
                         (elements (REQUIRED_CONFIGS
                                      ∖ dom (build_cfgs (reverse_configs Sample.configs)
                                               (header_cells
                                                  [[CStr "Name"; CStr "Address"];
                                                   [CStr "a"; CStr "b"]])))))];
        loaded := ["a.xlsx"]; input_workbook_bound := true;
        output_workbook := []; saved := None |}).
Proof. vm_compute. reflexivity. Qed.

Example sample_cfgs_src : Sample.cfgs !! "SRC" = Some 0.
Proof. reflexivity. Qed.

Example sample_cfgs_cmt : Sample.cfgs !! "CMT" = Some 6.
Proof. reflexivity. Qed.

Example sample_resolves : misses_required Sample.cfgs = false.
Proof. reflexivity. Qed.

Example sample_row_accepted :
  row_body Sample.configs Sample.cfgs Sample.data_row
  = Ok (Accepted {| source := "10.0.0.1; 10.0.0.2";
                    destination := "10.0.0.5";
                    service := "TCP 80; https";
                    action := "accept";
                    comment := "build access|ticket#123" |}).
Proof. reflexivity. Qed.

Example narrow_resolves : misses_required Narrow.cfgs = false.
Proof. reflexivity. Qed.

Example narrow_run_raises :
  fst (convert_excels Narrow.load_workbook Sample.configs ["a.xlsx"] (Some "out.xlsx") initial)
  = Raise (KeyError "USG").
Proof. vm_compute. reflexivity. Qed.

Example narrow_run_saves_nothing :
  saved (snd (convert_excels Narrow.load_workbook Sample.configs ["a.xlsx"]
                (Some "out.xlsx") initial)) = None.
Proof. vm_compute. reflexivity. Qed.

(** ** Results and look-ups *)

Lemma truthy_empty (s : string) : Py.truthy s = false <-> s = EmptyString.
Proof. destruct s; simpl; split; congruence. Qed.

Lemma bind_raises {A B : Type} (m : result A) (f : A -> result B) :
  (forall a, exists e, f a = Raise e) -> exists e, m ≫= f = Raise e.
Proof.
  intros Hf. destruct m as [a|e]; simpl.
  - apply Hf.
  - by exists e.
Qed.

Lemma cell_at_unbound (cfgs : gmap string nat) (row : list cell) (key : string) :
  cfgs !! key = None -> cell_at cfgs row key = Raise (KeyError key).
Proof. intros H. unfold cell_at. by rewrite H. Qed.

Lemma cell_at_Ok (cfgs : gmap string nat) (row : list cell) (key : string) (c : cell) :
  cell_at cfgs row key = Ok c <->
  exists idx, cfgs !! key = Some idx /\ row !! idx = Some c.
Proof.
  unfold cell_at. split.
  - destruct (cfgs !! key) as [idx|]; simpl; [|discriminate].
    destruct (row !! idx) as [c'|] eqn:E; [|discriminate].
    intros [= ->]. by exists idx.
  - intros (idx & -> & H). simpl. by rewrite H.
Qed.

Lemma note_field_unbound (cfgs : gmap string nat) (row : list cell)
    (key : string) (l : locals) :
  cfgs !! key = None -> note_field cfgs row key l = Raise (KeyError key).
Proof. intros H. unfold note_field. by rewrite cell_at_unbound. Qed.

Lemma configured_get (configs : config) (key : string) :
  configured configs -> key ∈ REQUIRED_CONFIGS ->
  exists header, configs_get configs key = Ok header.
Proof.
  intros Hc Hk. destruct (Hc key Hk) as [header E].
  exists header. unfold configs_get. by rewrite E.
Qed.

Lemma forallb_elements (X : gset string) (p : string -> bool) :
  forallb p (elements X) = true <-> forall key, key ∈ X -> p key = true.
Proof.
  rewrite forallb_forall. split; intros H key Hk.
  - apply H. apply list_elem_of_In. by apply elem_of_elements.
  - apply H. apply elem_of_elements. by apply list_elem_of_In.
Qed.

Lemma validate_configured (configs : config) :
  forallb (in_configs configs) (elements REQUIRED_CONFIGS) = true <->
  configured configs.
Proof.
  rewrite forallb_elements. unfold configured, in_configs.
  generalize REQUIRED_CONFIGS. intros X.
  split; intros H key Hk.
  - specialize (H key Hk). by apply bool_decide_eq_true_1 in H.
  - by apply bool_decide_eq_true_2, H.
Qed.

(** ** Optional columns *)

(** C1.  The claim says that a sheet whose headers resolve the five required
    fields but neither USG nor CMT is still normalised row by row without
    failure.  The row loop reads [row[cfgs["USG"]]] and [row[cfgs["CMT"]]]
    from a plain dict: when either key is unbound, the body of the loop
    raises for every row, whatever the row holds. *)
Theorem row_body_raises_without_optional
    (configs : config) (cfgs : gmap string nat) (row : list cell) :
  cfgs !! "USG" = None \/ cfgs !! "CMT" = None ->
  exists e, row_body configs cfgs row = Raise e.
Proof.
  intros H. unfold row_body.
  do 4 (apply bind_raises; intros ?).
  destruct H as [H|H].
  - rewrite (note_field_unbound _ _ _ _ H). by eexists.
  - apply bind_raises; intros ?.
    rewrite (note_field_unbound _ _ _ _ H). by eexists.
Qed.

Lemma row_body_raises_without_optional_witness :
  (Narrow.cfgs !! "USG" = None \/ Narrow.cfgs !! "CMT" = None)
  /\ misses_required Narrow.cfgs = false
  /\ exists e, row_body Sample.configs Narrow.cfgs Narrow.data_row = Raise e.
Proof.
  split; [left; reflexivity|].
  split; [reflexivity|].
  apply (row_body_raises_without_optional Sample.configs Narrow.cfgs Narrow.data_row).
  left; reflexivity.
Defined.

Example narrow_row_key_error :
  row_body Sample.configs Narrow.cfgs Narrow.data_row = Raise (KeyError "USG").
Proof. reflexivity. Qed.

(** ** Text normalisation of a cell *)

Lemma safe_strip_int (n : Z) :
  safe_strip (CInt n) = if (n =? 0)%Z then EmptyString else Py.str_int n.
Proof. unfold safe_strip, cell_truthy, cell_str. by destruct (n =? 0)%Z. Qed.

(** C8.  The claim says that only empty or blank content is mapped to the
    empty text, so that a numeric cell holding 0 becomes the text "0".
    [safe_strip] tests the truth value of a cell that is not a [str], and 0
    is false: the cell holding 0 is mapped to the empty text, as is the cell
    holding [False], while any other number gets its decimal text. *)
Theorem safe_strip_zero_is_empty :
  safe_strip (CInt 0) = EmptyString
  /\ safe_strip (CBool false) = EmptyString
  /\ safe_strip (CInt 80) = "80".
Proof. repeat split. Qed.

(** ** Splitting and joining *)

Lemma re_split_cons (val : string) : exists f fs, Py.re_split val = f :: fs.
Proof.
  destruct val as [|c s]; simpl; [by eauto|].
  destruct (Py.delimiter c); [by eauto|].
  destruct (Py.re_split s); by eauto.
Qed.

Lemma re_split_keeps_characters (val : string) :
  String.concat EmptyString (Py.re_split val) = drop_delimiters val.
Proof.
  induction val as [|c s IH]; simpl; [done|].
  destruct (re_split_cons s) as (f & fs & E). rewrite E in IH |- *.
  destruct (Py.delimiter c).
  - simpl. exact IH.
  - destruct fs as [|g gs]; simpl in *; by rewrite <- IH.
Qed.

(** C5.  The claim says that the source and the destination text are split
    on newline and comma, that the empty fragments are discarded and that
    "a,,b" gives "a; b".  The [SRC] and [DST] blocks join all the fragments
    of [re.split]; only the [SRV] block has the [if srv] filter.  The row
    with the source "a,,b" is written with the source "a; ; b". *)
Theorem address_keeps_empty_fragments :
  Py.join "; " (Py.re_split "a,,b") = "a; ; b"
  /\ row_body Sample.configs Sample.cfgs
       (Sample.row_of (CStr "a,,b") (CStr "10.0.0.5") (CStr "80") (CStr "yes") CNone)
     = Ok (Accepted {| source := "a; ; b";
                       destination := "10.0.0.5";
                       service := "TCP 80";
                       action := "accept";
                       comment := EmptyString |})
  /\ service_fragments "80,,443" = ["TCP 80"; "TCP 443"].
Proof. repeat split. Qed.

(** ** Blank rows and rows with both flags *)

(** C3.  The claim says that a row whose add flag and remove flag are both
    set is rejected with the mutual exclusion reason, whatever its other
    cells hold.  The loop takes a row with exactly three reasons for an
    empty line: a row with a source, no destination, no service and both
    flags has the reasons of the destination, of the service and of the
    flags, and is dropped in silence. *)
Theorem both_flags_two_blank_skipped :
  row_body Sample.configs Sample.cfgs
    (Sample.row_of (CStr "10.0.0.1") CNone CNone (CStr "x") (CStr "x"))
  = Ok Skipped
  /\ row_body Sample.configs Sample.cfgs
       (Sample.row_of (CStr "10.0.0.1") (CStr "10.0.0.5") CNone (CStr "x") (CStr "x"))
     = Ok (Rejected ["Miss 'Service'"; "Have Both ('Add'&'Remove')"]).
Proof. split; reflexivity. Qed.

(** ** The blocks of the row loop, one by one *)

Section Blocks.

Variable configs : config.
Variable cfgs : gmap string nat.
Variable row : list cell.

Lemma address_field_value (key : string) (c : cell) (l : locals) :
  cell_at cfgs row key = Ok c ->
  Py.truthy (safe_strip c) = true ->
  address_field configs cfgs row key l
  = Ok (set_value key (Py.join "; " (Py.re_split (safe_strip c))) l).
Proof. intros Hc Ht. unfold address_field. rewrite Hc. simpl. by rewrite Ht. Qed.

Lemma address_field_miss (key header : string) (c : cell) (l : locals) :
  cell_at cfgs row key = Ok c ->
  Py.truthy (safe_strip c) = false ->
  configs_get configs key = Ok header ->
  address_field configs cfgs row key l = Ok (add_error (miss_msg header) l).
Proof.
  intros Hc Ht Hh. unfold address_field. rewrite Hc. simpl. rewrite Ht, Hh. done.
Qed.

Lemma service_field_value (rules : list (string * string)) (c : cell) (l : locals) :
  cell_at cfgs row "SRV" = Ok c ->
  Py.truthy (safe_strip c) = true ->
  service_replace configs = Some rules ->
  service_field configs cfgs row l
  = Ok (set_value "SRV"
          (apply_rules rules (Py.join "; " (service_fragments (safe_strip c)))) l).
Proof.
  intros Hc Ht Hr. unfold service_field, rules_get. rewrite Hc. simpl.
  rewrite Ht, Hr. done.
Qed.

Lemma service_field_miss (header : string) (c : cell) (l : locals) :
  cell_at cfgs row "SRV" = Ok c ->
  Py.truthy (safe_strip c) = false ->
  configs_get configs "SRV" = Ok header ->
  service_field configs cfgs row l = Ok (add_error (miss_msg header) l).
Proof.
  intros Hc Ht Hh. unfold service_field. rewrite Hc. simpl. rewrite Ht, Hh. done.
Qed.

Lemma action_field_one (a r : cell) (l : locals) :
  cell_at cfgs row "ADD" = Ok a ->
  cell_at cfgs row "RM" = Ok r ->
  Py.truthy (safe_strip a) && Py.truthy (safe_strip r) = false ->
  action_field configs cfgs row l
  = Ok (set_value "ACT"
          (if Py.truthy (safe_strip a) then "accept"
           else if Py.truthy (safe_strip r) then "remove" else EmptyString) l).
Proof.
  intros Ha Hr Hb. unfold action_field. rewrite Ha, Hr. simpl. rewrite Hb.
  destruct (Py.truthy (safe_strip a)), (Py.truthy (safe_strip r)); done.
Qed.

Lemma action_field_both (add rm : string) (a r : cell) (l : locals) :
  cell_at cfgs row "ADD" = Ok a ->
  cell_at cfgs row "RM" = Ok r ->
  Py.truthy (safe_strip a) && Py.truthy (safe_strip r) = true ->
  configs_get configs "ADD" = Ok add ->
  configs_get configs "RM" = Ok rm ->
  action_field configs cfgs row l = Ok (add_error (both_msg add rm) l).
Proof.
  intros Ha Hr Hb Hadd Hrm. unfold action_field. rewrite Ha, Hr. simpl.
  rewrite Hb, Hadd. simpl. by rewrite Hrm.
Qed.

Lemma note_field_Ok (key : string) (c : cell) (l : locals) :
  cell_at cfgs row key = Ok c ->
  note_field cfgs row key l
  = Ok (if Py.truthy (safe_strip c) then add_tmp (safe_strip c) l else l).
Proof.
  intros Hc. unfold note_field. rewrite Hc. simpl.
  by destruct (Py.truthy (safe_strip c)).
Qed.

End Blocks.

Lemma get_value_set (key val : string) (l : locals) :
  get_value (set_value key val l) key = val.
Proof. unfold get_value, set_value. simpl. by rewrite lookup_insert_eq. Qed.

Lemma get_value_set_ne (key key' val : string) (l : locals) :
  key <> key' -> get_value (set_value key val l) key' = get_value l key'.
Proof. intros H. unfold get_value, set_value. simpl. by rewrite lookup_insert_ne. Qed.

(** ** Accepted rows *)

(** A row whose three core cells are not blank and whose flags are not both
    set, on a sheet where the seven cells can be read: the five values that
    are written. *)
Lemma row_body_complete
    (configs : config) (cfgs : gmap string nat) (row : list cell)
    (rules : list (string * string)) (src dst srv add rm usg cmt : cell) :
  service_replace configs = Some rules ->
  cell_at cfgs row "SRC" = Ok src ->
  cell_at cfgs row "DST" = Ok dst ->
  cell_at cfgs row "SRV" = Ok srv ->
  cell_at cfgs row "ADD" = Ok add ->
  cell_at cfgs row "RM" = Ok rm ->
  cell_at cfgs row "USG" = Ok usg ->
  cell_at cfgs row "CMT" = Ok cmt ->
  Py.truthy (safe_strip src) = true ->
  Py.truthy (safe_strip dst) = true ->
  Py.truthy (safe_strip srv) = true ->
  Py.truthy (safe_strip add) && Py.truthy (safe_strip rm) = false ->
  row_body configs cfgs row
  = Ok (Accepted
          {| source := Py.join "; " (Py.re_split (safe_strip src));
             destination := Py.join "; " (Py.re_split (safe_strip dst));
             service :=
               apply_rules rules (Py.join "; " (service_fragments (safe_strip srv)));
             action :=
               if Py.truthy (safe_strip add) then "accept"
               else if Py.truthy (safe_strip rm) then "remove" else EmptyString;
             comment :=
               Py.join "|" (List.filter Py.truthy [safe_strip usg; safe_strip cmt]) |}).
Proof.
  intros Hrules Hsrc Hdst Hsrv Hadd Hrm Husg Hcmt Tsrc Tdst Tsrv Tflags.
  unfold row_body.
  rewrite (address_field_value _ _ _ _ _ _ Hsrc Tsrc). simpl.
  rewrite (address_field_value _ _ _ _ _ _ Hdst Tdst). simpl.
  rewrite (service_field_value _ _ _ _ _ _ Hsrv Tsrv Hrules). simpl.
  rewrite (action_field_one _ _ _ _ _ _ Hadd Hrm Tflags). simpl.
  rewrite (note_field_Ok _ _ _ _ _ Husg). simpl.
  rewrite (note_field_Ok _ _ _ _ _ Hcmt). simpl.
  do 2 f_equal.
  destruct (Py.truthy (safe_strip usg)), (Py.truthy (safe_strip cmt));
    unfold decide_row; simpl; unfold get_value; simpl;
    repeat (rewrite lookup_insert_eq || (rewrite lookup_insert_ne; [|done]));
    reflexivity.
Qed.

(** C7.  The claim says that a row whose source, destination and service
    cells normalise to non-empty text and whose flags are not both set is
    accepted.  On a sheet that passes the header check with the five
    required columns only, such a row is not accepted: the loop reads
    [row[cfgs["USG"]]] from a plain dict and raises [KeyError], the defect
    of C1.  The row of the sheet [Narrow.input_sheet] has a source, a
    destination, a service and the add flag alone. *)
Theorem complete_row_raises_without_optional :
  misses_required Narrow.cfgs = false
  /\ (exists src dst srv add rm,
        cell_at Narrow.cfgs Narrow.data_row "SRC" = Ok src
        /\ cell_at Narrow.cfgs Narrow.data_row "DST" = Ok dst
        /\ cell_at Narrow.cfgs Narrow.data_row "SRV" = Ok srv
        /\ cell_at Narrow.cfgs Narrow.data_row "ADD" = Ok add
        /\ cell_at Narrow.cfgs Narrow.data_row "RM" = Ok rm
        /\ Py.truthy (safe_strip src) = true
        /\ Py.truthy (safe_strip dst) = true
        /\ Py.truthy (safe_strip srv) = true
        /\ Py.truthy (safe_strip add) && Py.truthy (safe_strip rm) = false)
  /\ row_body Sample.configs Narrow.cfgs Narrow.data_row = Raise (KeyError "USG")
  /\ fst (convert_excels Narrow.load_workbook Sample.configs ["a.xlsx"]
            (Some "out.xlsx") initial)
     = Raise (KeyError "USG").
Proof.
  split; [reflexivity|]. split.
  - exists (CStr "10.0.0.1"), (CStr "10.0.0.5"), (CStr "80"), (CStr "yes"), CNone.
    repeat split.
  - split; [reflexivity | vm_compute; reflexivity].
Qed.

(** X29.  A row whose source, destination and service cells normalise to
    non-empty text and whose add and remove flags are not both set is
    accepted, when its seven cells can be read and the configuration has
    the substitution table [rules]: the five values written are the joined
    source, the joined destination, the tagged and substituted service, the
    action "accept", "remove" or the empty text according to the flag that
    is set, and the usage and comment joined with a bar. *)
Theorem complete_row_accepted
    (configs : config) (cfgs : gmap string nat) (row : list cell)
    (rules : list (string * string)) (src dst srv add rm usg cmt : cell) :
  service_replace configs = Some rules ->
  cell_at cfgs row "SRC" = Ok src ->
  cell_at cfgs row "DST" = Ok dst ->
  cell_at cfgs row "SRV" = Ok srv ->
  cell_at cfgs row "ADD" = Ok add ->
  cell_at cfgs row "RM" = Ok rm ->
  cell_at cfgs row "USG" = Ok usg ->
  cell_at cfgs row "CMT" = Ok cmt ->
  Py.truthy (safe_strip src) = true ->
  Py.truthy (safe_strip dst) = true ->
  Py.truthy (safe_strip srv) = true ->
  Py.truthy (safe_strip add) && Py.truthy (safe_strip rm) = false ->
  row_body configs cfgs row
  = Ok (Accepted
          {| source := Py.join "; " (Py.re_split (safe_strip src));
             destination := Py.join "; " (Py.re_split (safe_strip dst));
             service :=
               apply_rules rules (Py.join "; " (service_fragments (safe_strip srv)));
             action :=
               if Py.truthy (safe_strip add) then "accept"
               else if Py.truthy (safe_strip rm) then "remove" else EmptyString;
             comment :=
               Py.join "|" (List.filter Py.truthy [safe_strip usg; safe_strip cmt]) |}).
Proof. apply row_body_complete. Qed.

Lemma complete_row_accepted_witness :
  row_body Sample.configs Sample.cfgs Sample.data_row
  = Ok (Accepted {| source := "10.0.0.1; 10.0.0.2";
                    destination := "10.0.0.5";
                    service := "TCP 80; https";
                    action := "accept";
                    comment := "build access|ticket#123" |}).
Proof.
  exact (complete_row_accepted Sample.configs Sample.cfgs Sample.data_row
           [("TCP 443", "https")]
           (CStr "10.0.0.1
10.0.0.2") (CStr "10.0.0.5") (CStr "80,443") (CStr "yes") CNone
           (CStr "build access") (CStr "ticket#123")
           eq_refl eq_refl eq_refl eq_refl eq_refl eq_refl eq_refl eq_refl
           eq_refl eq_refl eq_refl eq_refl).
Defined.

(** ** Blank rows *)

Lemma required_keys :
  "SRC" ∈ REQUIRED_CONFIGS /\ "DST" ∈ REQUIRED_CONFIGS /\ "SRV" ∈ REQUIRED_CONFIGS
  /\ "ADD" ∈ REQUIRED_CONFIGS /\ "RM" ∈ REQUIRED_CONFIGS.
Proof. unfold REQUIRED_CONFIGS. repeat split; set_solver. Qed.

Lemma blank_core_both_flags_rejected :
  safe_strip CNone = EmptyString
  /\ Py.truthy (safe_strip (CStr "x")) = true
  /\ row_body Sample.configs Sample.cfgs
       (Sample.row_of CNone CNone CNone (CStr "x") (CStr "x"))
     = Ok (Rejected ["Miss 'Source'"; "Miss 'Destination'"; "Miss 'Service'";
                     "Have Both ('Add'&'Remove')"])
  /\ row_body Sample.configs Sample.cfgs
       (Sample.row_of CNone CNone CNone (CStr "x") (CStr "x"))
     <> Ok Skipped.
Proof. repeat split. discriminate. Qed.

(** C2, as amended.  A row whose source, destination and service cells all
    normalise to the empty text is dropped in silence when its add and
    remove flags are not both set, whatever its usage and comment cells
    hold and whichever flag is set; when both flags are set it has four
    reasons and is reported.  The seven cells are those the loop reads, on
    a sheet where all seven can be read; the five headers are those of the
    configuration, which has the five required keys, as [convert_excels]
    has checked. *)
Theorem blank_core_row_skipped
    (configs : config) (cfgs : gmap string nat) (row : list cell)
    (hsrc hdst hsrv hadd hrm : string) (src dst srv add rm usg cmt : cell) :
  configs_get configs "SRC" = Ok hsrc ->
  configs_get configs "DST" = Ok hdst ->
  configs_get configs "SRV" = Ok hsrv ->
  configs_get configs "ADD" = Ok hadd ->
  configs_get configs "RM" = Ok hrm ->
  cell_at cfgs row "SRC" = Ok src ->
  cell_at cfgs row "DST" = Ok dst ->
  cell_at cfgs row "SRV" = Ok srv ->
  cell_at cfgs row "ADD" = Ok add ->
  cell_at cfgs row "RM" = Ok rm ->
  cell_at cfgs row "USG" = Ok usg ->
  cell_at cfgs row "CMT" = Ok cmt ->
  safe_strip src = EmptyString ->
  safe_strip dst = EmptyString ->
  safe_strip srv = EmptyString ->
  row_body configs cfgs row
  = Ok (if Py.truthy (safe_strip add) && Py.truthy (safe_strip rm)
        then Rejected [miss_msg hsrc; miss_msg hdst; miss_msg hsrv;
                       both_msg hadd hrm]
        else Skipped).
Proof.
  intros Gsrc Gdst Gsrv Gadd Grm Hsrc Hdst Hsrv Hadd Hrm Husg Hcmt Esrc Edst Esrv.
  apply truthy_empty in Esrc, Edst, Esrv.
  unfold row_body.
  rewrite (address_field_miss _ _ _ _ _ _ _ Hsrc Esrc Gsrc). simpl.
  rewrite (address_field_miss _ _ _ _ _ _ _ Hdst Edst Gdst). simpl.
  rewrite (service_field_miss _ _ _ _ _ _ Hsrv Esrv Gsrv). simpl.
  destruct (Py.truthy (safe_strip add) && Py.truthy (safe_strip rm)) eqn:Tflags.
  - rewrite (action_field_both _ _ _ _ _ _ _ _ Hadd Hrm Tflags Gadd Grm). simpl.
    rewrite (note_field_Ok _ _ _ _ _ Husg). simpl.
    rewrite (note_field_Ok _ _ _ _ _ Hcmt). simpl.
    by destruct (Py.truthy (safe_strip usg)), (Py.truthy (safe_strip cmt)).
  - rewrite (action_field_one _ _ _ _ _ _ Hadd Hrm Tflags). simpl.
    rewrite (note_field_Ok _ _ _ _ _ Husg). simpl.
    rewrite (note_field_Ok _ _ _ _ _ Hcmt). simpl.
    by destruct (Py.truthy (safe_strip usg)), (Py.truthy (safe_strip cmt)).
Qed.

Lemma sample_configured : configured Sample.configs.
Proof. apply validate_configured. vm_compute. reflexivity. Qed.

Lemma blank_core_row_skipped_witness :
  row_body Sample.configs Sample.cfgs
    [CStr "  "; CNone; CInt 0; CStr "yes"; CNone; CStr "build access"; CStr "ticket#123"]
  = Ok Skipped
  /\ row_body Sample.configs Sample.cfgs
       [CNone; CBool false; CStr " "; CStr "yes"; CInt 1; CNone; CStr "ticket#123"]
     = Ok (Rejected ["Miss 'Source'"; "Miss 'Destination'"; "Miss 'Service'";
                     "Have Both ('Add'&'Remove')"]).
Proof.
  split.
  - exact (blank_core_row_skipped Sample.configs Sample.cfgs
             [CStr "  "; CNone; CInt 0; CStr "yes"; CNone;
              CStr "build access"; CStr "ticket#123"]
             "Source" "Destination" "Service" "Add" "Remove"
             (CStr "  ") CNone (CInt 0) (CStr "yes") CNone
             (CStr "build access") (CStr "ticket#123")
             eq_refl eq_refl eq_refl eq_refl eq_refl
             eq_refl eq_refl eq_refl eq_refl eq_refl eq_refl eq_refl
             eq_refl eq_refl eq_refl).
  - exact (blank_core_row_skipped Sample.configs Sample.cfgs
             [CNone; CBool false; CStr " "; CStr "yes"; CInt 1; CNone;
              CStr "ticket#123"]
             "Source" "Destination" "Service" "Add" "Remove"
             CNone (CBool false) (CStr " ") (CStr "yes") (CInt 1)
             CNone (CStr "ticket#123")
             eq_refl eq_refl eq_refl eq_refl eq_refl
             eq_refl eq_refl eq_refl eq_refl eq_refl eq_refl eq_refl
             eq_refl eq_refl eq_refl).
Defined.

(** ** Schema resolution *)

Lemma header_cells_two_rows (row_one row_two : list cell) (rest : sheet) :
  header_cells (row_one :: row_two :: rest)
  = enumerate (map safe_strip row_one) ++ enumerate (map safe_strip row_two).
Proof. unfold header_cells. simpl. by rewrite app_nil_r. Qed.

Lemma build_cfgs_app (reverse : gmap string string) (before after : list (nat * string)) :
  build_cfgs reverse (before ++ after)
  = foldl (bind_column reverse) (build_cfgs reverse before) after.
Proof. unfold build_cfgs. apply foldl_app. Qed.

Lemma bind_column_other (reverse : gmap string string) (cfgs : gmap string nat)
    (item : nat * string) (key : string) :
  reverse !! item.2 <> Some key ->
  bind_column reverse cfgs item !! key = cfgs !! key.
Proof.
  intros H. unfold bind_column.
  destruct (reverse !! item.2) as [key'|]; [|done].
  apply lookup_insert_ne. congruence.
Qed.

Lemma foldl_bind_column_other (reverse : gmap string string)
    (after : list (nat * string)) (cfgs : gmap string nat) (key : string) :
  (forall item, item ∈ after -> reverse !! item.2 <> Some key) ->
  foldl (bind_column reverse) cfgs after !! key = cfgs !! key.
Proof.
  revert cfgs. induction after as [|item after IH]; intros cfgs H; simpl; [done|].
  rewrite IH.
  - apply bind_column_other, H. by left.
  - intros item' Hin. apply H. by right.
Qed.

Lemma repeated_header_binds_last :
  header_cells Twice.input_sheet
  = [(0, "Source"); (1, "Destination"); (2, "Service"); (3, "Add"); (4, "Remove");
     (5, "Usage"); (6, "Comment");
     (0, "10.0.0.1"); (1, "10.0.0.5"); (2, "80"); (3, "Source");
     (4, EmptyString); (5, EmptyString); (6, EmptyString)]
  /\ reverse_configs Sample.configs !! "Source" = Some "SRC"
  /\ Twice.cfgs !! "SRC" = Some 3
  /\ Twice.cfgs !! "SRC" <> Some 0.
Proof. repeat split. discriminate. Qed.

(** C4, as amended.  When the header text of a logical field is in more
    than one cell of the rows scanned (row 1 before row 2), the field is
    bound to the column index of the last of these cells: each match
    overwrites the binding of the match before it. *)
Theorem build_cfgs_last_match
    (reverse : gmap string string) (before after : list (nat * string))
    (idx : nat) (text key : string) :
  reverse !! text = Some key ->
  (forall item, item ∈ after -> reverse !! item.2 <> Some key) ->
  build_cfgs reverse (before ++ (idx, text) :: after) !! key = Some idx.
Proof.
  intros Hkey Hafter.
  rewrite build_cfgs_app. simpl.
  rewrite foldl_bind_column_other by exact Hafter.
  unfold bind_column. simpl. rewrite Hkey.
  apply lookup_insert_eq.
Qed.

Lemma build_cfgs_last_match_witness :
  build_cfgs (reverse_configs Sample.configs)
    ([(0, "Source"); (1, "Destination")] ++ (2, "Source") :: [(3, "Add")]) !! "SRC"
  = Some 2.
Proof.
  apply (build_cfgs_last_match (reverse_configs Sample.configs)
           [(0, "Source"); (1, "Destination")] [(3, "Add")] 2 "Source" "SRC").
  - reflexivity.
  - intros item Hin. apply list_elem_of_singleton in Hin. subst item.
    vm_compute. discriminate.
Defined.

(** ** Port tagging *)



Lemma occurs_not_numeric (c : ascii) (s : string) :
  occurs c s -> Py.numeric_char c = false -> Py.all_chars Py.numeric_char s = false.
Proof.
  unfold occurs. induction s as [|c' s IH]; simpl; [done|].
  intros [->|Hin] Hc.
  - by rewrite Hc.
  - rewrite (IH Hin Hc). apply andb_false_r.
Qed.




(** ** Fragments are not trimmed *)

Lemma space_not_numeric (c : ascii) :
  Py.isspace c = true -> Py.numeric_char c = false.
Proof.
  unfold Py.isspace, Py.numeric_char. generalize (nat_of_ascii c). intros n.
  rewrite !orb_true_iff, !andb_true_iff, !Nat.leb_le, !Nat.eqb_eq. intros H.
  apply not_true_is_false.
  rewrite !orb_true_iff, !andb_true_iff, !Nat.leb_le, !Nat.eqb_eq. lia.
Qed.

(** C10.  The fragments of a cell are not trimmed one by one.  Put end to
    end, the fragments of [re.split] are the text without its newlines and
    commas, every other character in its place, white space included.  A
    fragment that holds a white space character is not numeric for
    [isnumeric] and gets no prefix.  The row loop joins these very
    fragments: the [SRC] and [DST] blocks set their value to the fragments
    of the cell joined with "; ", the [SRV] block to the non-empty
    fragments, tagged and joined, then substituted, and these are the
    values written for every accepted row.  For the service cell "80, 443"
    the second fragment is " 443", which is joined as it is. *)
Theorem fragments_not_trimmed :
  (forall val, String.concat EmptyString (Py.re_split val) = drop_delimiters val)
  /\ (forall srv c, occurs c srv -> Py.isspace c = true -> tag_port srv = srv)
  /\ (forall (configs : config) (cfgs : gmap string nat) (row : list cell)
             (key : string) (c : cell) (l : locals),
        cell_at cfgs row key = Ok c ->
        Py.truthy (safe_strip c) = true ->
        address_field configs cfgs row key l
        = Ok (set_value key (Py.join "; " (Py.re_split (safe_strip c))) l))
  /\ (forall (configs : config) (cfgs : gmap string nat) (row : list cell)
             (rules : list (string * string)) (c : cell) (l : locals),
        cell_at cfgs row "SRV" = Ok c ->
        Py.truthy (safe_strip c) = true ->
        service_replace configs = Some rules ->
        service_field configs cfgs row l
        = Ok (set_value "SRV"
                (apply_rules rules
                   (Py.join "; "
                      (map tag_port
                         (List.filter Py.truthy (Py.re_split (safe_strip c))))))
                l))
  /\ (forall (configs : config) (cfgs : gmap string nat) (row : list cell)
             (rules : list (string * string)) (src dst srv add rm usg cmt : cell),
        service_replace configs = Some rules ->
        cell_at cfgs row "SRC" = Ok src ->
        cell_at cfgs row "DST" = Ok dst ->
        cell_at cfgs row "SRV" = Ok srv ->
        cell_at cfgs row "ADD" = Ok add ->
        cell_at cfgs row "RM" = Ok rm ->
        cell_at cfgs row "USG" = Ok usg ->
        cell_at cfgs row "CMT" = Ok cmt ->
        Py.truthy (safe_strip src) = true ->
        Py.truthy (safe_strip dst) = true ->
        Py.truthy (safe_strip srv) = true ->
        Py.truthy (safe_strip add) && Py.truthy (safe_strip rm) = false ->
        exists out,
          row_body configs cfgs row = Ok (Accepted out)
          /\ source out = Py.join "; " (Py.re_split (safe_strip src))
          /\ destination out = Py.join "; " (Py.re_split (safe_strip dst))
          /\ service out
             = apply_rules rules
                 (Py.join "; "
                    (map tag_port
                       (List.filter Py.truthy (Py.re_split (safe_strip srv))))))
  /\ Py.re_split "80, 443" = ["80"; " 443"]
  /\ Py.isnumeric " 443" = false
  /\ service_fragments "80, 443" = ["TCP 80"; " 443"]
  /\ row_body Sample.no_rules Sample.cfgs
       (Sample.row_of (CStr "a, b") (CStr "c
 d") (CStr "80, 443") CNone CNone)
     = Ok (Accepted {| source := "a;  b";
                       destination := "c;  d";
                       service := "TCP 80;  443";
                       action := EmptyString;
                       comment := EmptyString |}).
Proof.
  split; [exact re_split_keeps_characters|].
  split.
  { intros srv c Hin Hc. unfold tag_port, Py.isnumeric.
    rewrite (occurs_not_numeric _ _ Hin (space_not_numeric _ Hc)).
    by rewrite andb_false_r. }
  split; [exact address_field_value|].
  split; [exact service_field_value|].
  split.
  { intros configs cfgs row rules src dst srv add rm usg cmt
      Hrules Hsrc Hdst Hsrv Hadd Hrm Husg Hcmt Tsrc Tdst Tsrv Tflags.
    eexists. split.
    - exact (row_body_complete configs cfgs row rules src dst srv add rm usg cmt
               Hrules Hsrc Hdst Hsrv Hadd Hrm Husg Hcmt Tsrc Tdst Tsrv Tflags).
    - repeat split. }
  repeat split.
Qed.

Lemma fragments_not_trimmed_witness :
  exists out,
    row_body Sample.no_rules Sample.cfgs
      (Sample.row_of (CStr "a , b") (CStr " c") (CStr "80 ,443") CNone (CStr "x"))
    = Ok (Accepted out)
    /\ source out = Py.join "; " (Py.re_split (safe_strip (CStr "a , b")))
    /\ destination out = Py.join "; " (Py.re_split (safe_strip (CStr " c")))
    /\ service out
       = apply_rules []
           (Py.join "; "
              (map tag_port
                 (List.filter Py.truthy (Py.re_split (safe_strip (CStr "80 ,443")))))).
Proof.
  apply (proj1 (proj2 (proj2 (proj2 (proj2 fragments_not_trimmed))))
           Sample.no_rules Sample.cfgs
           (Sample.row_of (CStr "a , b") (CStr " c") (CStr "80 ,443") CNone (CStr "x"))
           [] (CStr "a , b") (CStr " c") (CStr "80 ,443") CNone (CStr "x")
           CNone CNone);
    reflexivity.
Defined.

(** ** Validation of the configuration *)

Lemma validate_missing (configs : config) (inputs : list string)
    (output : option string) (key : string) :
  key ∈ REQUIRED_CONFIGS ->
  header_map configs !! key = None ->
  validate configs inputs output
  = config_error
      :: (match inputs with [] => [inputs_error] | _ :: _ => [] end)
      ++ (if output_truthy output then [] else [output_error]).
Proof.
  intros Hk Hnone. unfold validate.
  destruct (forallb (in_configs configs) (elements REQUIRED_CONFIGS)) eqn:E; [|done].
  apply validate_configured in E. destruct (E key Hk) as [v Hv]. congruence.
Qed.

(** C9.  When the configuration lacks one of the five required keys, the
    run prints the configuration error once, in its only [print], and
    returns: no workbook is loaded, no output sheet is made and nothing is
    saved. *)
Theorem missing_required_config_aborts
    (load_workbook : string -> load_result) (configs : config)
    (inputs : list string) (output : option string) (key : string) :
  key ∈ REQUIRED_CONFIGS ->
  header_map configs !! key = None ->
  exists rest,
    (config_error ∉ rest)
    /\ convert_excels load_workbook configs inputs output initial
       = (Ok tt, {| console := [ErrorLines (config_error :: rest)];
                    loaded := [];
                    input_workbook_bound := false;
                    output_workbook := [];
                    saved := None |}).
Proof.
  intros Hk Hnone.
  exists ((match inputs with [] => [inputs_error] | _ :: _ => [] end)
          ++ (if output_truthy output then [] else [output_error])).
  split.
  - intros Hin. unfold config_error, inputs_error, output_error in Hin.
    destruct inputs, (output_truthy output); simpl in Hin;
      repeat (apply elem_of_cons in Hin as [Hin|Hin]; [discriminate Hin|]);
      by apply elem_of_nil in Hin.
  - unfold convert_excels. by rewrite (validate_missing _ _ _ _ Hk Hnone).
Qed.

Lemma missing_required_config_aborts_witness :
  exists rest,
    (config_error ∉ rest)
    /\ convert_excels Narrow.load_workbook no_remove ["a.xlsx"] (Some "out.xlsx") initial
       = (Ok tt, {| console := [ErrorLines (config_error :: rest)];
                    loaded := [];
                    input_workbook_bound := false;
                    output_workbook := [];
                    saved := None |}).
Proof.
  apply (missing_required_config_aborts Narrow.load_workbook no_remove
           ["a.xlsx"] (Some "out.xlsx") "RM").
  - apply required_keys.
  - reflexivity.
Defined.

(** * Further properties of the row loop *)

Lemma bind_Raise {A B : Type} (e : exn) (f : A -> result B) :
  Raise e ≫= f = Raise e.
Proof. reflexivity. Qed.

Lemma cell_at_short (cfgs : gmap string nat) (row : list cell) (key : string)
    (idx : nat) :
  cfgs !! key = Some idx -> length row <= idx ->
  cell_at cfgs row key = Raise IndexError.
Proof.
  intros Hk Hlen. unfold cell_at. rewrite Hk. simpl.
  by rewrite (lookup_ge_None_2 row idx Hlen).
Qed.

Section BlocksInGeneral.

Variable configs : config.
Variable cfgs : gmap string nat.
Variable row : list cell.

Lemma address_field_Raise (key : string) (e : exn) (l : locals) :
  cell_at cfgs row key = Raise e -> address_field configs cfgs row key l = Raise e.
Proof. intros H. unfold address_field. by rewrite H. Qed.

Lemma service_field_Raise (e : exn) (l : locals) :
  cell_at cfgs row "SRV" = Raise e -> service_field configs cfgs row l = Raise e.
Proof. intros H. unfold service_field. by rewrite H. Qed.

Lemma action_field_Raise (key : string) (e : exn) (l : locals) :
  key = "ADD" \/ key = "RM" ->
  cell_at cfgs row key = Raise e ->
  exists e', action_field configs cfgs row l = Raise e'.
Proof.
  intros [->| ->] H; unfold action_field.
  - rewrite H. by eexists.
  - destruct (cell_at cfgs row "ADD") as [a|e0]; simpl; [|by eexists].
    rewrite H. by eexists.
Qed.

Lemma note_field_Raise (key : string) (e : exn) (l : locals) :
  cell_at cfgs row key = Raise e -> note_field cfgs row key l = Raise e.
Proof. intros H. unfold note_field. by rewrite H. Qed.

Lemma address_field_Ok (key header : string) (c : cell) (l : locals) :
  cell_at cfgs row key = Ok c ->
  configs_get configs key = Ok header ->
  address_field configs cfgs row key l
  = Ok (if Py.truthy (safe_strip c)
        then set_value key (Py.join "; " (Py.re_split (safe_strip c))) l
        else add_error (miss_msg header) l).
Proof.
  intros Hc Hh. unfold address_field. rewrite Hc. simpl.
  destruct (Py.truthy (safe_strip c)); [done|]. by rewrite Hh.
Qed.

Lemma service_field_Ok (rules : list (string * string)) (header : string)
    (c : cell) (l : locals) :
  cell_at cfgs row "SRV" = Ok c ->
  configs_get configs "SRV" = Ok header ->
  service_replace configs = Some rules ->
  service_field configs cfgs row l
  = Ok (if Py.truthy (safe_strip c)
        then set_value "SRV"
               (apply_rules rules (Py.join "; " (service_fragments (safe_strip c)))) l
        else add_error (miss_msg header) l).
Proof.
  intros Hc Hh Hr. unfold service_field, rules_get. rewrite Hc. simpl.
  destruct (Py.truthy (safe_strip c)); [by rewrite Hr | by rewrite Hh].
Qed.

Lemma action_field_Ok (add rm : string) (a r : cell) (l : locals) :
  cell_at cfgs row "ADD" = Ok a ->
  cell_at cfgs row "RM" = Ok r ->
  configs_get configs "ADD" = Ok add ->
  configs_get configs "RM" = Ok rm ->
  exists l',
    action_field configs cfgs row l = Ok l'
    /\ error_msg l' = error_msg l ++ both_if (safe_strip a) (safe_strip r) add rm.
Proof.
  intros Ha Hr Hadd Hrm. unfold action_field, both_if. rewrite Ha, Hr. simpl.
  destruct (Py.truthy (safe_strip a)), (Py.truthy (safe_strip r)); simpl.
  - rewrite Hadd. simpl. rewrite Hrm. by eexists.
  - eexists. split; [done|]. simpl. by rewrite app_nil_r.
  - eexists. split; [done|]. simpl. by rewrite app_nil_r.
  - eexists. split; [done|]. simpl. by rewrite app_nil_r.
Qed.

End BlocksInGeneral.

Lemma error_msg_if_set (b : bool) (key val msg : string) (l : locals) :
  error_msg (if b then set_value key val l else add_error msg l)
  = error_msg l ++ (if b then [] else [msg]).
Proof. destruct b; simpl; by rewrite ?app_nil_r. Qed.

Lemma error_msg_if_tmp (b : bool) (val : string) (l : locals) :
  error_msg (if b then add_tmp val l else l) = error_msg l.
Proof. by destruct b. Qed.

(** The list of reasons of a row all of whose cells can be read. *)
Lemma row_body_reasons
    (configs : config) (cfgs : gmap string nat) (row : list cell)
    (rules : list (string * string)) (hsrc hdst hsrv hadd hrm : string)
    (src dst srv add rm usg cmt : cell) :
  service_replace configs = Some rules ->
  configs_get configs "SRC" = Ok hsrc ->
  configs_get configs "DST" = Ok hdst ->
  configs_get configs "SRV" = Ok hsrv ->
  configs_get configs "ADD" = Ok hadd ->
  configs_get configs "RM" = Ok hrm ->
  cell_at cfgs row "SRC" = Ok src ->
  cell_at cfgs row "DST" = Ok dst ->
  cell_at cfgs row "SRV" = Ok srv ->
  cell_at cfgs row "ADD" = Ok add ->
  cell_at cfgs row "RM" = Ok rm ->
  cell_at cfgs row "USG" = Ok usg ->
  cell_at cfgs row "CMT" = Ok cmt ->
  exists l,
    row_body configs cfgs row = Ok (decide_row l)
    /\ error_msg l
       = miss_if (safe_strip src) hsrc ++ miss_if (safe_strip dst) hdst
         ++ miss_if (safe_strip srv) hsrv
         ++ both_if (safe_strip add) (safe_strip rm) hadd hrm.
Proof.
  intros Hrules Gsrc Gdst Gsrv Gadd Grm Hsrc Hdst Hsrv Hadd Hrm Husg Hcmt.
  unfold row_body.
  rewrite (address_field_Ok _ _ _ _ _ _ _ Hsrc Gsrc). simpl.
  rewrite (address_field_Ok _ _ _ _ _ _ _ Hdst Gdst). simpl.
  rewrite (service_field_Ok _ _ _ _ _ _ _ Hsrv Gsrv Hrules). simpl.
  match goal with
  | |- context [action_field _ _ _ ?l0] =>
      destruct (action_field_Ok configs cfgs row hadd hrm add rm l0
                  Hadd Hrm Gadd Grm) as (l1 & E1 & M1)
  end.
  rewrite E1. simpl.
  rewrite (note_field_Ok _ _ _ _ _ Husg). simpl.
  rewrite (note_field_Ok _ _ _ _ _ Hcmt). simpl.
  eexists. split; [reflexivity|].
  simpl. rewrite !error_msg_if_tmp, M1, !error_msg_if_set. simpl.
  unfold miss_if. by rewrite <- !app_assoc.
Qed.

Lemma decide_row_rejected (l : locals) :
  error_msg l <> [] -> length (error_msg l) <> 3 ->
  decide_row l = Rejected (error_msg l).
Proof.
  intros Hne Hlen. unfold decide_row.
  destruct (error_msg l) as [|m ms] eqn:E; [done|].
  by apply Nat.eqb_neq in Hlen as ->.
Qed.

Lemma sample_gets :
  configs_get Sample.configs "SRC" = Ok "Source"
  /\ configs_get Sample.configs "DST" = Ok "Destination"
  /\ configs_get Sample.configs "SRV" = Ok "Service"
  /\ configs_get Sample.configs "ADD" = Ok "Add"
  /\ configs_get Sample.configs "RM" = Ok "Remove".
Proof. repeat split. Qed.

(** X1.  A row in which one or two of the source, destination and service
    cells are blank, and whose flags are not both set, is reported with one
    reason for each blank cell, in the order source, destination, service,
    and is not written. *)
Theorem partial_row_rejected
    (configs : config) (cfgs : gmap string nat) (row : list cell)
    (rules : list (string * string)) (hsrc hdst hsrv hadd hrm : string)
    (src dst srv add rm usg cmt : cell) :
  service_replace configs = Some rules ->
  configs_get configs "SRC" = Ok hsrc ->
  configs_get configs "DST" = Ok hdst ->
  configs_get configs "SRV" = Ok hsrv ->
  configs_get configs "ADD" = Ok hadd ->
  configs_get configs "RM" = Ok hrm ->
  cell_at cfgs row "SRC" = Ok src ->
  cell_at cfgs row "DST" = Ok dst ->
  cell_at cfgs row "SRV" = Ok srv ->
  cell_at cfgs row "ADD" = Ok add ->
  cell_at cfgs row "RM" = Ok rm ->
  cell_at cfgs row "USG" = Ok usg ->
  cell_at cfgs row "CMT" = Ok cmt ->
  Py.truthy (safe_strip add) && Py.truthy (safe_strip rm) = false ->
  Py.truthy (safe_strip src) && Py.truthy (safe_strip dst)
    && Py.truthy (safe_strip srv) = false ->
  Py.truthy (safe_strip src) || Py.truthy (safe_strip dst)
    || Py.truthy (safe_strip srv) = true ->
  row_body configs cfgs row
  = Ok (Rejected (miss_if (safe_strip src) hsrc ++ miss_if (safe_strip dst) hdst
                  ++ miss_if (safe_strip srv) hsrv)).
Proof.
  intros Hrules Gsrc Gdst Gsrv Gadd Grm Hsrc Hdst Hsrv Hadd Hrm Husg Hcmt
    Tflags Tnotall Tsome.
  destruct (row_body_reasons configs cfgs row rules hsrc hdst hsrv hadd hrm
              src dst srv add rm usg cmt) as (l & -> & E); try assumption.
  unfold both_if in E. rewrite Tflags, !app_nil_r in E.
  rewrite decide_row_rejected; rewrite E; [done| |]; unfold miss_if;
    destruct (Py.truthy (safe_strip src)), (Py.truthy (safe_strip dst)),
      (Py.truthy (safe_strip srv)); simpl in *; congruence.
Qed.

Lemma partial_row_rejected_witness :
  row_body Sample.configs Sample.cfgs
    (Sample.row_of CNone (CStr "10.0.0.5") (CStr "80") CNone CNone)
  = Ok (Rejected ["Miss 'Source'"]).
Proof.
  destruct sample_gets as (G1 & G2 & G3 & G4 & G5).
  exact (partial_row_rejected Sample.configs Sample.cfgs
           (Sample.row_of CNone (CStr "10.0.0.5") (CStr "80") CNone CNone)
           [("TCP 443", "https")] "Source" "Destination" "Service" "Add" "Remove"
           CNone (CStr "10.0.0.5") (CStr "80") CNone CNone CNone CNone
           eq_refl G1 G2 G3 G4 G5
           eq_refl eq_refl eq_refl eq_refl eq_refl eq_refl eq_refl
           eq_refl eq_refl eq_refl).
Defined.

(** X2.  A row whose add flag and remove flag are both set, and in which
    the number of blank core cells is not two, is reported with the reasons
    of its blank core cells followed by the reason of the two flags.  The
    seven cells are those the loop reads, on a sheet where all seven can be
    read; the configuration has the five headers and the substitution
    table. *)
Theorem both_flags_rejected
    (configs : config) (cfgs : gmap string nat) (row : list cell)
    (rules : list (string * string)) (hsrc hdst hsrv hadd hrm : string)
    (src dst srv add rm usg cmt : cell) :
  service_replace configs = Some rules ->
  configs_get configs "SRC" = Ok hsrc ->
  configs_get configs "DST" = Ok hdst ->
  configs_get configs "SRV" = Ok hsrv ->
  configs_get configs "ADD" = Ok hadd ->
  configs_get configs "RM" = Ok hrm ->
  cell_at cfgs row "SRC" = Ok src ->
  cell_at cfgs row "DST" = Ok dst ->
  cell_at cfgs row "SRV" = Ok srv ->
  cell_at cfgs row "ADD" = Ok add ->
  cell_at cfgs row "RM" = Ok rm ->
  cell_at cfgs row "USG" = Ok usg ->
  cell_at cfgs row "CMT" = Ok cmt ->
  Py.truthy (safe_strip add) && Py.truthy (safe_strip rm) = true ->
  length (miss_if (safe_strip src) hsrc ++ miss_if (safe_strip dst) hdst
          ++ miss_if (safe_strip srv) hsrv) <> 2 ->
  row_body configs cfgs row
  = Ok (Rejected ((miss_if (safe_strip src) hsrc ++ miss_if (safe_strip dst) hdst
                   ++ miss_if (safe_strip srv) hsrv) ++ [both_msg hadd hrm])).
Proof.
  intros Hrules Gsrc Gdst Gsrv Gadd Grm Hsrc Hdst Hsrv Hadd Hrm Husg Hcmt
    Tflags Hcount.
  destruct (row_body_reasons configs cfgs row rules hsrc hdst hsrv hadd hrm
              src dst srv add rm usg cmt) as (l & -> & E); try assumption.
  unfold both_if in E. rewrite Tflags in E.
  set (core := miss_if (safe_strip src) hsrc ++ miss_if (safe_strip dst) hdst
               ++ miss_if (safe_strip srv) hsrv) in *.
  assert (E' : error_msg l = core ++ [both_msg hadd hrm]).
  { rewrite E. unfold core. by rewrite <- !app_assoc. }
  rewrite decide_row_rejected; rewrite E'; [done| |].
  - by destruct core.
  - rewrite length_app. simpl. lia.
Qed.

Lemma both_flags_rejected_witness :
  row_body Sample.configs Sample.cfgs
    (Sample.row_of CNone CNone CNone (CStr "x") (CInt 1))
  = Ok (Rejected ["Miss 'Source'"; "Miss 'Destination'"; "Miss 'Service'";
                  "Have Both ('Add'&'Remove')"]).
Proof.
  destruct sample_gets as (G1 & G2 & G3 & G4 & G5).
  apply (both_flags_rejected Sample.configs Sample.cfgs
           (Sample.row_of CNone CNone CNone (CStr "x") (CInt 1))
           [("TCP 443", "https")] "Source" "Destination" "Service" "Add" "Remove"
           CNone CNone CNone (CStr "x") (CInt 1) CNone CNone
           eq_refl G1 G2 G3 G4 G5
           eq_refl eq_refl eq_refl eq_refl eq_refl eq_refl eq_refl eq_refl).
  simpl. lia.
Defined.

(** X3.  A row shorter than the column index bound to one of the seven
    keys cannot be normalised: reading the missing cell raises, whatever the
    other cells hold. *)
Theorem short_row_raises
    (configs : config) (cfgs : gmap string nat) (row : list cell)
    (key : string) (idx : nat) :
  key ∈ ROW_KEYS ->
  cfgs !! key = Some idx ->
  length row <= idx ->
  exists e, row_body configs cfgs row = Raise e.
Proof.
  intros Hin Hk Hlen.
  pose proof (cell_at_short cfgs row key idx Hk Hlen) as Hraise.
  unfold ROW_KEYS in Hin. unfold row_body.
  repeat (apply elem_of_cons in Hin as [->|Hin]).
  - rewrite (address_field_Raise _ _ _ _ _ _ Hraise). by eexists.
  - apply bind_raises; intros ?.
    rewrite (address_field_Raise _ _ _ _ _ _ Hraise). by eexists.
  - do 2 (apply bind_raises; intros ?).
    rewrite (service_field_Raise _ _ _ _ _ Hraise). by eexists.
  - do 3 (apply bind_raises; intros ?).
    match goal with
    | |- context [action_field _ _ _ ?l0] =>
        destruct (action_field_Raise configs cfgs row "ADD" IndexError l0
                    (or_introl eq_refl) Hraise) as [e' ->]
    end. by eexists.
  - do 3 (apply bind_raises; intros ?).
    match goal with
    | |- context [action_field _ _ _ ?l0] =>
        destruct (action_field_Raise configs cfgs row "RM" IndexError l0
                    (or_intror eq_refl) Hraise) as [e' ->]
    end. by eexists.
  - do 4 (apply bind_raises; intros ?).
    rewrite (note_field_Raise _ _ _ _ _ Hraise). by eexists.
  - do 5 (apply bind_raises; intros ?).
    rewrite (note_field_Raise _ _ _ _ _ Hraise). by eexists.
  - by apply elem_of_nil in Hin.
Qed.

Lemma short_row_raises_witness :
  exists e, row_body Sample.configs Sample.cfgs
              [CStr "10.0.0.1"; CStr "10.0.0.5"; CStr "80"] = Raise e.
Proof.
  apply (short_row_raises Sample.configs Sample.cfgs
           [CStr "10.0.0.1"; CStr "10.0.0.5"; CStr "80"] "ADD" 3).
  - unfold ROW_KEYS. do 3 right. left.
  - reflexivity.
  - simpl. lia.
Defined.

(** X4.  With a configuration that has no [service_replace] entry, a row
    whose source and destination cells can be read and whose service cell is
    not blank raises [KeyError] on that entry. *)
Theorem service_without_rules_raises
    (configs : config) (cfgs : gmap string nat) (row : list cell)
    (hsrc hdst : string) (src dst srv : cell) :
  service_replace configs = None ->
  configs_get configs "SRC" = Ok hsrc ->
  configs_get configs "DST" = Ok hdst ->
  cell_at cfgs row "SRC" = Ok src ->
  cell_at cfgs row "DST" = Ok dst ->
  cell_at cfgs row "SRV" = Ok srv ->
  Py.truthy (safe_strip srv) = true ->
  row_body configs cfgs row = Raise (KeyError "service_replace").
Proof.
  intros Hnone Gsrc Gdst Hsrc Hdst Hsrv Tsrv. unfold row_body.
  rewrite (address_field_Ok _ _ _ _ _ _ _ Hsrc Gsrc). simpl.
  rewrite (address_field_Ok _ _ _ _ _ _ _ Hdst Gdst). simpl.
  unfold service_field, rules_get. rewrite Hsrv. simpl.
  by rewrite Tsrv, Hnone.
Qed.

Lemma service_without_rules_raises_witness :
  row_body without_rules Sample.cfgs Sample.data_row
  = Raise (KeyError "service_replace").
Proof.
  exact (service_without_rules_raises without_rules Sample.cfgs Sample.data_row
           "Source" "Destination"
           (CStr "10.0.0.1
10.0.0.2") (CStr "10.0.0.5") (CStr "80,443")
           eq_refl eq_refl eq_refl eq_refl eq_refl eq_refl eq_refl).
Defined.

(** * Further properties of schema resolution *)

Lemma elem_of_enumerate {A : Type} (l : list A) (i : nat) (x : A) :
  (i, x) ∈ enumerate l <-> l !! i = Some x.
Proof.
  unfold enumerate. rewrite elem_of_lookup_imap. split.
  - intros (j & y & [= -> ->] & H). exact H.
  - intros H. by exists i, x.
Qed.

Lemma lookup_map {A B : Type} (f : A -> B) (l : list A) (i : nat) :
  map f l !! i = f <$> l !! i.
Proof. revert i. induction l as [|x l IH]; intros [|i]; simpl; auto. Qed.

Lemma elem_of_header_cells (input_sheet : sheet) (idx : nat) (text : string) :
  (idx, text) ∈ header_cells input_sheet <->
  exists row c, row ∈ take 2 input_sheet /\ row !! idx = Some c /\ safe_strip c = text.
Proof.
  unfold header_cells. rewrite list_elem_of_In, in_concat. split.
  - intros (cells & Hcells & Hin). apply in_map_iff in Hcells as (row & <- & Hrow).
    apply list_elem_of_In, elem_of_enumerate in Hin.
    rewrite lookup_map in Hin.
    destruct (row !! idx) as [c|] eqn:E; [|discriminate].
    injection Hin as <-. exists row, c. by rewrite list_elem_of_In.
  - intros (row & c & Hrow & Hc & <-).
    exists (enumerate (map safe_strip row)). split.
    + apply (in_map (fun row => enumerate (map safe_strip row))).
      by apply list_elem_of_In.
    + apply list_elem_of_In, elem_of_enumerate.
      rewrite lookup_map, Hc. done.
Qed.

Lemma foldl_bind_column_Some (reverse : gmap string string)
    (cells : list (nat * string)) (cfgs : gmap string nat) (key : string) (idx : nat) :
  foldl (bind_column reverse) cfgs cells !! key = Some idx ->
  cfgs !! key = Some idx
  \/ exists text, (idx, text) ∈ cells /\ reverse !! text = Some key.
Proof.
  revert cfgs. induction cells as [|[i t] cells IH]; intros cfgs H; simpl in H.
  - by left.
  - apply IH in H as [H|(text & Hin & Hrev)].
    + unfold bind_column in H. simpl in H.
      destruct (reverse !! t) as [k|] eqn:E; [|by left].
      destruct (decide (k = key)) as [->|Hne].
      * rewrite lookup_insert_eq in H. injection H as ->.
        right. exists t. split; [by left | done].
      * rewrite lookup_insert_ne in H by done. by left.
    + right. exists text. split; [by right | done].
Qed.

Lemma foldl_bind_column_bound (reverse : gmap string string)
    (cells : list (nat * string)) (cfgs : gmap string nat) (key : string) :
  is_Some (cfgs !! key) ->
  is_Some (foldl (bind_column reverse) cfgs cells !! key).
Proof.
  revert cfgs. induction cells as [|item cells IH]; intros cfgs H; simpl; [done|].
  apply IH. unfold bind_column.
  destruct (reverse !! item.2) as [k|]; [|done].
  destruct (decide (k = key)) as [->|Hne].
  - rewrite lookup_insert_eq. by eexists.
  - by rewrite lookup_insert_ne.
Qed.

Lemma build_cfgs_bound (reverse : gmap string string) (cells : list (nat * string))
    (idx : nat) (text key : string) :
  (idx, text) ∈ cells -> reverse !! text = Some key ->
  is_Some (build_cfgs reverse cells !! key).
Proof.
  intros Hin Hrev. apply list_elem_of_split in Hin as (before & after & ->).
  rewrite build_cfgs_app. simpl. apply foldl_bind_column_bound.
  unfold bind_column. simpl. rewrite Hrev, lookup_insert_eq. by eexists.
Qed.

Lemma reverse_configs_snoc (items : list (string * string)) (kv : string * string)
    (service : option (list (string * string))) :
  reverse_configs {| headers := items ++ [kv]; service_replace := service |}
  = <[kv.2 := kv.1]>
      (reverse_configs {| headers := items; service_replace := service |}).
Proof. unfold reverse_configs. simpl. by rewrite foldl_app. Qed.

Lemma reverse_configs_Some (configs : config) (text key : string) :
  reverse_configs configs !! text = Some key -> (key, text) ∈ headers configs.
Proof.
  destruct configs as [items service]. simpl.
  induction items as [|[k t] items IH] using rev_ind; [done|].
  rewrite reverse_configs_snoc. simpl.
  destruct (decide (t = text)) as [->|Hne].
  - rewrite lookup_insert_eq. intros [= ->]. apply elem_of_app. right. by left.
  - rewrite lookup_insert_ne by done. intros H. apply elem_of_app. left. by apply IH.
Qed.

Lemma reverse_configs_unique (configs : config) (text key : string) :
  NoDup (headers configs).*2 -> (key, text) ∈ headers configs ->
  reverse_configs configs !! text = Some key.
Proof.
  destruct configs as [items service]. simpl.
  induction items as [|[k t] items IH] using rev_ind; [by intros _ ?%elem_of_nil|].
  rewrite fmap_app, NoDup_app. simpl. intros (Hnd & Hdisj & _) Hin.
  rewrite reverse_configs_snoc. simpl.
  apply elem_of_app in Hin as [Hin|Hin].
  - rewrite lookup_insert_ne; [by apply IH|].
    intros ->. apply (Hdisj text); [|by left].
    apply list_elem_of_fmap. by exists (key, text).
  - apply list_elem_of_singleton in Hin as [= -> ->]. apply lookup_insert_eq.
Qed.

Lemma config_key_unique (configs : config) (key text text' : string) :
  NoDup (headers configs).*1 ->
  (key, text) ∈ headers configs -> (key, text') ∈ headers configs -> text = text'.
Proof.
  intros Hnd H1 H2.
  apply (elem_of_list_to_map _ _ _ Hnd) in H1, H2.
  rewrite H1 in H2. by injection H2.
Qed.

Lemma size_intersection_eq (X R : gset string) :
  size (X ∩ R) = size R <-> R ⊆ X.
Proof.
  split.
  - intros Hsize.
    assert (X ∩ R = R) as Heq.
    { apply set_subseteq_size_eq; [apply intersection_subseteq_r | lia]. }
    rewrite <- Heq. apply intersection_subseteq_l.
  - intros Hsub. f_equal. apply leibniz_equiv.
    rewrite (comm_L (∩)). by apply subseteq_intersection_1.
Qed.

Lemma misses_required_false (cfgs : gmap string nat) :
  misses_required cfgs = false <-> REQUIRED_CONFIGS ⊆ dom cfgs.
Proof.
  unfold misses_required. rewrite negb_false_iff, Nat.eqb_eq.
  generalize REQUIRED_CONFIGS. intros R. apply size_intersection_eq.
Qed.

(** X5.  A sheet passes the header check exactly when each of the five
    required keys is bound to a column. *)
Theorem sheet_resolves_iff (cfgs : gmap string nat) :
  misses_required cfgs = false <->
  forall key, key ∈ REQUIRED_CONFIGS -> is_Some (cfgs !! key).
Proof.
  rewrite misses_required_false. generalize REQUIRED_CONFIGS. intros R. split.
  - intros Hsub key Hk. apply elem_of_dom. by apply Hsub.
  - intros H key Hk. apply elem_of_dom. by apply H.
Qed.

(** X6.  Every column that schema resolution binds to a key is the
    position of a cell of row 1 or row 2 whose stripped text is the header
    configured for that key: no key is bound to a column outside the row
    that holds its header, and no key outside the configuration is bound. *)
Theorem resolved_column_is_header_cell
    (configs : config) (input_sheet : sheet) (key : string) (idx : nat) :
  build_cfgs (reverse_configs configs) (header_cells input_sheet) !! key = Some idx ->
  exists row c,
    row ∈ take 2 input_sheet /\ row !! idx = Some c
    /\ (key, safe_strip c) ∈ headers configs.
Proof.
  intros H. unfold build_cfgs in H.
  apply foldl_bind_column_Some in H as [H|(text & Hin & Hrev)].
  - by rewrite lookup_empty in H.
  - apply elem_of_header_cells in Hin as (row & c & Hrow & Hc & <-).
    exists row, c. repeat split; [done..|]. by apply reverse_configs_Some.
Qed.

Lemma resolved_column_is_header_cell_witness :
  exists row c,
    row ∈ take 2 Twice.input_sheet /\ row !! 3 = Some c
    /\ ("SRC", safe_strip c) ∈ headers Sample.configs.
Proof.
  apply (resolved_column_is_header_cell Sample.configs Twice.input_sheet "SRC" 3).
  reflexivity.
Defined.

(** X7.  When no two keys of the configuration share a header text, a key
    whose header text is in a cell of row 1 or row 2 is bound to a column. *)
Theorem configured_header_is_resolved
    (configs : config) (input_sheet : sheet) (row : list cell)
    (key : string) (idx : nat) (c : cell) :
  NoDup (headers configs).*2 ->
  row ∈ take 2 input_sheet ->
  row !! idx = Some c ->
  (key, safe_strip c) ∈ headers configs ->
  is_Some (build_cfgs (reverse_configs configs) (header_cells input_sheet) !! key).
Proof.
  intros Hnd Hrow Hc Hin.
  apply (build_cfgs_bound _ _ idx (safe_strip c)).
  - apply elem_of_header_cells. by exists row, c.
  - by apply reverse_configs_unique.
Qed.

Lemma configured_header_is_resolved_witness :
  is_Some (build_cfgs (reverse_configs Sample.configs)
             (header_cells Narrow.input_sheet) !! "RM").
Proof.
  apply (configured_header_is_resolved Sample.configs Narrow.input_sheet
           Narrow.header_row "RM" 4 (CStr "Remove")).
  - simpl. repeat constructor; rewrite ?elem_of_cons, ?elem_of_nil;
      intuition discriminate.
  - simpl. by left.
  - reflexivity.
  - simpl. do 4 right. by left.
Defined.

(** X8.  When two different required keys are configured with the same
    header text, no sheet passes the header check: the reverse index keeps
    one key for the text, and the other key is never bound. *)
Theorem shared_header_text_skips_every_sheet
    (configs : config) (key1 key2 text : string) (input_sheet : sheet) :
  NoDup (headers configs).*1 ->
  key1 <> key2 ->
  key1 ∈ REQUIRED_CONFIGS -> key2 ∈ REQUIRED_CONFIGS ->
  (key1, text) ∈ headers configs -> (key2, text) ∈ headers configs ->
  misses_required
    (build_cfgs (reverse_configs configs) (header_cells input_sheet)) = true.
Proof.
  intros Hnd Hne Hk1 Hk2 Hin1 Hin2.
  apply not_false_iff_true. intros Hres.
  pose proof (proj1 (misses_required_false _) Hres) as Hall.
  destruct (proj1 (elem_of_dom _ _) (Hall key1 Hk1)) as [i1 H1].
  destruct (proj1 (elem_of_dom _ _) (Hall key2 Hk2)) as [i2 H2].
  unfold build_cfgs in H1, H2.
  apply foldl_bind_column_Some in H1 as [H1|(t1 & _ & R1)];
    [by rewrite lookup_empty in H1|].
  apply foldl_bind_column_Some in H2 as [H2|(t2 & _ & R2)];
    [by rewrite lookup_empty in H2|].
  pose proof (config_key_unique _ _ _ _ Hnd (reverse_configs_Some _ _ _ R1) Hin1).
  pose proof (config_key_unique _ _ _ _ Hnd (reverse_configs_Some _ _ _ R2) Hin2).
  subst t1 t2. rewrite R1 in R2. by injection R2.
Qed.

Lemma shared_header_text_skips_every_sheet_witness :
  misses_required
    (build_cfgs (reverse_configs shared_flag)
       (header_cells [[CStr "Source"; CStr "Destination"; CStr "Service";
                       CStr "Flag"]])) = true.
Proof.
  apply (shared_header_text_skips_every_sheet shared_flag "ADD" "RM" "Flag").
  - simpl. repeat constructor; rewrite ?elem_of_cons, ?elem_of_nil;
      intuition discriminate.
  - discriminate.
  - apply required_keys.
  - apply required_keys.
  - simpl. do 3 right. by left.
  - simpl. do 4 right. by left.
Defined.

(** * Further properties of the loops *)

Lemma bind_M_Ok {A B : Type} (m : M A) (f : A -> M B) (w w' : world) (a : A) :
  m w = (Ok a, w') -> (m ≫= f) w = f a w'.
Proof. intros H. unfold mbind, M_bind. by rewrite H. Qed.

Lemma bind_M_Raise {A B : Type} (m : M A) (f : A -> M B) (w w' : world) (e : exn) :
  m w = (Raise e, w') -> (m ≫= f) w = (Raise e, w').
Proof. intros H. unfold mbind, M_bind. by rewrite H. Qed.

Lemma after_nil (w : world) : after w [] (output_workbook w) = w.
Proof. destruct w. unfold after. simpl. by rewrite app_nil_r. Qed.

Lemma after_after (w : world) (lines lines' : list line)
    (sheets sheets' : list (list canonical_row)) :
  after (after w lines sheets) lines' sheets' = after w (lines ++ lines') sheets'.
Proof. unfold after. simpl. by rewrite app_assoc. Qed.

Lemma append_last_snoc (out : canonical_row) (sheets : list (list canonical_row))
    (last : list canonical_row) :
  append_last out (sheets ++ [last]) = sheets ++ [last ++ [out]].
Proof.
  unfold append_last. rewrite reverse_app. simpl. by rewrite reverse_involutive.
Qed.

Lemma row_step_Ok (configs : config) (cfgs : gmap string nat)
    (item : nat * list cell) (o : outcome) (w : world)
    (sheets : list (list canonical_row)) (last : list canonical_row) :
  row_body configs cfgs item.2 = Ok o ->
  output_workbook w = sheets ++ [last] ->
  row_step configs cfgs item w
  = (Ok tt, after w (reported item.1 [o]) (sheets ++ [last ++ written [o]])).
Proof.
  intros Hbody Hout. unfold row_step, lift, mbind, M_bind. rewrite Hbody.
  destruct o as [out| |reasons]; simpl.
  - unfold write_row, after. simpl. rewrite Hout, append_last_snoc.
    by rewrite !app_nil_r.
  - unfold mret, M_ret, after. simpl. rewrite !app_nil_r, <- Hout.
    by destruct w.
  - unfold print, after. simpl. by rewrite !app_nil_r, Hout.
Qed.

Lemma row_step_Raise (configs : config) (cfgs : gmap string nat)
    (item : nat * list cell) (e : exn) (w : world) :
  row_body configs cfgs item.2 = Raise e ->
  row_step configs cfgs item w = (Raise e, w).
Proof. intros H. unfold row_step, lift, mbind, M_bind. by rewrite H. Qed.

Lemma written_app (os os' : list outcome) : written (os ++ os') = written os ++ written os'.
Proof. unfold written. apply flat_map_app. Qed.

(** The rows of a sheet that all normalise, taken from row [first]. *)
Lemma rows_loop_Ok (configs : config) (cfgs : gmap string nat)
    (rows : list (list cell)) (os : list outcome) :
  Forall2 (fun row o => row_body configs cfgs row = Ok o) rows os ->
  forall (first : nat) (w : world) (sheets : list (list canonical_row))
         (last : list canonical_row),
    output_workbook w = sheets ++ [last] ->
    for_each (row_step configs cfgs) (imap (fun i row => (i + first, row)) rows) w
    = (Ok tt, after w (reported first os) (sheets ++ [last ++ written os])).
Proof.
  induction 1 as [|row o rows os Hrow _ IH]; intros first w sheets last Hout.
  - simpl. unfold mret, M_ret. rewrite app_nil_r, <- Hout. by rewrite after_nil.
  - simpl.
    rewrite (bind_M_Ok _ _ _ _ tt (row_step_Ok configs cfgs (0 + first, row) o w
                                     sheets last Hrow Hout)).
    rewrite (imap_ext _ (fun i row => (i + S first, row)))
      by (intros; simpl; f_equal; lia).
    rewrite (IH (S first) _ sheets (last ++ written [o])) by done.
    rewrite after_after.
    destruct o; simpl; by rewrite ?app_nil_r, <- ?app_assoc.
Qed.

(** The rows before a row that raises are dealt with, those after it are
    not read. *)
Lemma rows_loop_Raise (configs : config) (cfgs : gmap string nat)
    (before : list (list cell)) (os : list outcome)
    (row : list cell) (rest : list (list cell)) (e : exn) :
  Forall2 (fun row o => row_body configs cfgs row = Ok o) before os ->
  row_body configs cfgs row = Raise e ->
  forall (first : nat) (w : world) (sheets : list (list canonical_row))
         (last : list canonical_row),
    output_workbook w = sheets ++ [last] ->
    for_each (row_step configs cfgs)
      (imap (fun i row => (i + first, row)) (before ++ row :: rest)) w
    = (Raise e, after w (reported first os) (sheets ++ [last ++ written os])).
Proof.
  intros Hbefore Hraise.
  induction Hbefore as [|r o before os Hr _ IH]; intros first w sheets last Hout.
  - simpl. rewrite (bind_M_Raise _ _ w w e); [|by apply row_step_Raise].
    rewrite app_nil_r, <- Hout. by rewrite after_nil.
  - simpl.
    rewrite (bind_M_Ok _ _ _ _ tt (row_step_Ok configs cfgs (0 + first, r) o w
                                     sheets last Hr Hout)).
    rewrite (imap_ext _ (fun i row => (i + S first, row)))
      by (intros; simpl; f_equal; lia).
    rewrite (IH (S first) _ sheets (last ++ written [o])) by done.
    rewrite after_after.
    destruct o; simpl; by rewrite ?app_nil_r, <- ?app_assoc.
Qed.

(** X9.  A sheet that passes the header check and whose rows from row 2 on
    all normalise adds exactly one sheet to the output workbook.  The new
    sheet holds the accepted rows in the order of the input, without gaps;
    each rejected row prints one line with its row number, counted from 2;
    a skipped row leaves no trace. *)
Theorem resolved_sheet_appends_one_sheet
    (configs : config) (name : string) (input_sheet : sheet)
    (os : list outcome) (w : world) :
  misses_required
    (build_cfgs (reverse_configs configs) (header_cells input_sheet)) = false ->
  Forall2
    (fun row o =>
       row_body configs
         (build_cfgs (reverse_configs configs) (header_cells input_sheet)) row = Ok o)
    (drop 1 input_sheet) os ->
  sheet_body configs (name, input_sheet) w
  = (Ok tt,
     after w
       (SheetMeet name
          (build_cfgs (reverse_configs configs) (header_cells input_sheet))
        :: reported 2 os)
       (output_workbook w ++ [written os])).
Proof.
  intros Hres Hrows. unfold sheet_body. simpl. rewrite Hres.
  unfold data_rows.
  set (cfgs := build_cfgs (reverse_configs configs) (header_cells input_sheet)) in *.
  rewrite (bind_M_Ok _ _ w (after w [SheetMeet name cfgs] (output_workbook w)) tt);
    [|reflexivity].
  rewrite (bind_M_Ok _ _ _
             (after w [SheetMeet name cfgs] (output_workbook w ++ [[]])) tt);
    [|reflexivity].
  rewrite (rows_loop_Ok configs cfgs _ os Hrows 2 _ (output_workbook w) [])
    by reflexivity.
  by rewrite after_after.
Qed.

Lemma resolved_sheet_appends_one_sheet_witness :
  sheet_body Sample.configs ("Sheet1", Mixed.input_sheet) initial
  = (Ok tt,
     after initial
       (SheetMeet "Sheet1" Mixed.cfgs
        :: reported 2 [Accepted Mixed.first_out; Skipped;
                       Rejected ["Miss 'Destination'"];
                       Accepted Mixed.second_out])
       (output_workbook initial
        ++ [written [Accepted Mixed.first_out; Skipped;
                     Rejected ["Miss 'Destination'"];
                     Accepted Mixed.second_out]])).
Proof.
  apply (resolved_sheet_appends_one_sheet Sample.configs "Sheet1" Mixed.input_sheet
           [Accepted Mixed.first_out; Skipped; Rejected ["Miss 'Destination'"];
            Accepted Mixed.second_out]
           initial).
  - reflexivity.
  - repeat constructor.
Defined.

(** X10.  When a row of a sheet raises, the loop stops there: the rows
    before it have been written or reported, the rows after it are never
    read, and the exception leaves the sheet loop. *)
Theorem raising_row_stops_the_sheet
    (configs : config) (name : string) (header : list cell)
    (before : list (list cell)) (row : list cell) (rest : list (list cell))
    (os : list outcome) (e : exn) (w : world) :
  misses_required
    (build_cfgs (reverse_configs configs)
       (header_cells (header :: before ++ row :: rest))) = false ->
  Forall2
    (fun r o =>
       row_body configs
         (build_cfgs (reverse_configs configs)
            (header_cells (header :: before ++ row :: rest))) r = Ok o)
    before os ->
  row_body configs
    (build_cfgs (reverse_configs configs)
       (header_cells (header :: before ++ row :: rest))) row = Raise e ->
  sheet_body configs (name, header :: before ++ row :: rest) w
  = (Raise e,
     after w
       (SheetMeet name
          (build_cfgs (reverse_configs configs)
             (header_cells (header :: before ++ row :: rest)))
        :: reported 2 os)
       (output_workbook w ++ [written os])).
Proof.
  assert (Hdrop : drop 1 (header :: before ++ row :: rest) = before ++ row :: rest)
    by reflexivity.
  revert Hdrop. generalize (header :: before ++ row :: rest).
  intros input_sheet Hdrop Hres Hrows Hraise.
  unfold sheet_body. simpl. rewrite Hres. unfold data_rows. rewrite Hdrop.
  set (cfgs := build_cfgs (reverse_configs configs) (header_cells input_sheet)) in *.
  rewrite (bind_M_Ok _ _ w (after w [SheetMeet name cfgs] (output_workbook w)) tt);
    [|reflexivity].
  rewrite (bind_M_Ok _ _ _
             (after w [SheetMeet name cfgs] (output_workbook w ++ [[]])) tt);
    [|reflexivity].
  rewrite (rows_loop_Raise configs cfgs before os row rest e Hrows Hraise 2 _
             (output_workbook w) []) by reflexivity.
  by rewrite after_after.
Qed.

Lemma raising_row_stops_the_sheet_witness :
  sheet_body Sample.configs ("Sheet1", Broken.input_sheet) initial
  = (Raise IndexError,
     after initial
       (SheetMeet "Sheet1" Broken.cfgs :: reported 2 [Accepted Mixed.first_out])
       (output_workbook initial ++ [written [Accepted Mixed.first_out]])).
Proof.
  apply (raising_row_stops_the_sheet Sample.configs "Sheet1" Sample.header_row
           Broken.before Broken.short_row Broken.rest
           [Accepted Mixed.first_out] IndexError initial).
  - reflexivity.
  - repeat constructor.
  - reflexivity.
Defined.

Lemma required_configs_lookup (configs : config) (key : string) :
  key ∈ REQUIRED_CONFIGS ->
  required_configs configs !! key = header_map configs !! key.
Proof.
  unfold required_configs, header_map. generalize REQUIRED_CONFIGS. intros R Hk.
  induction (headers configs) as [|[k v] items IH]; [done|].
  cbn [List.filter fst]. rewrite (list_to_map_cons items).
  destruct (bool_decide (k ∈ R)) eqn:E.
  - rewrite list_to_map_cons.
    destruct (decide (k = key)) as [->|Hne].
    + by rewrite !lookup_insert_eq.
    + by rewrite !lookup_insert_ne.
  - apply bool_decide_eq_false_1 in E.
    rewrite lookup_insert_ne; [done|]. by intros ->.
Qed.

Lemma miss_configs_of_Ok (required : gmap string string) (miss : list string) :
  Forall (fun key => is_Some (required !! key)) miss ->
  exists vals,
    miss_configs_of required miss = Ok vals
    /\ Forall2 (fun key val => required !! key = Some val) miss vals.
Proof.
  induction 1 as [|key miss [val Hval] _ (vals & E & IH)]; simpl.
  - exists []. by split.
  - exists (val :: vals). rewrite Hval. simpl. rewrite E. simpl.
    split; [done|]. by constructor.
Qed.

Lemma missing_keys (cfgs : gmap string nat) (key : string) :
  key ∈ elements (REQUIRED_CONFIGS ∖ dom cfgs)
  <-> key ∈ REQUIRED_CONFIGS /\ cfgs !! key = None.
Proof. by rewrite elem_of_elements, elem_of_difference, not_elem_of_dom. Qed.

Lemma missing_keys_not_empty (cfgs : gmap string nat) :
  misses_required cfgs = true -> elements (REQUIRED_CONFIGS ∖ dom cfgs) <> [].
Proof.
  intros Hmiss Hnil. apply elements_empty_inv in Hnil.
  assert (Hsub : REQUIRED_CONFIGS ⊆ dom cfgs).
  { intros key Hk. destruct (decide (key ∈ dom cfgs)) as [|Hn]; [done|].
    exfalso. apply (not_elem_of_empty (C:=gset string) key).
    apply Hnil. by apply elem_of_difference. }
  apply misses_required_false in Hsub. congruence.
Qed.

(** A sheet that fails the header check: the line it prints lists the
    configured header of each missing key, in the order in which the set of
    missing keys is gone through. *)
Lemma sheet_body_skipped (configs : config) (name : string) (input_sheet : sheet)
    (w : world) :
  configured configs ->
  misses_required
    (build_cfgs (reverse_configs configs) (header_cells input_sheet)) = true ->
  exists miss_configs,
    sheet_body configs (name, input_sheet) w
    = (Ok tt, after w [SheetSkipped name miss_configs] (output_workbook w))
    /\ Forall2 (fun key header => configs_get configs key = Ok header)
         (elements
            (REQUIRED_CONFIGS
               ∖ dom (build_cfgs (reverse_configs configs)
                        (header_cells input_sheet))))
         miss_configs.
Proof.
  intros Hconf Hmiss. unfold sheet_body. simpl. rewrite Hmiss.
  set (cfgs := build_cfgs (reverse_configs configs) (header_cells input_sheet)) in *.
  assert (Hkeys : Forall (fun key => key ∈ REQUIRED_CONFIGS)
                    (elements (REQUIRED_CONFIGS ∖ dom cfgs))).
  { apply Forall_forall. intros key Hin. by apply missing_keys in Hin as [Hk _]. }
  destruct (miss_configs_of_Ok (required_configs configs)
              (elements (REQUIRED_CONFIGS ∖ dom cfgs))) as (vals & E & Hvals).
  { eapply Forall_impl; [exact Hkeys|]. intros key Hk. simpl.
    rewrite required_configs_lookup by done. by apply Hconf. }
  exists vals. split.
  - unfold lift, mbind, M_bind. by rewrite E.
  - clear E. induction Hvals as [|key val miss vals Hval _ IH]; [constructor|].
    apply Forall_cons in Hkeys as [Hk Hrest].
    constructor; [|by apply IH].
    rewrite required_configs_lookup in Hval by done.
    unfold configs_get. by rewrite Hval.
Qed.

(** X11.  A sheet that fails the header check prints one line and is left
    at that: no output sheet is made and no row is read.  The line lists the
    configured headers of the required keys that the sheet misses: one
    header for each missing key and no other, each key once, and one key at
    least. *)
Theorem unresolved_sheet_is_skipped
    (configs : config) (name : string) (input_sheet : sheet) (w : world) :
  configured configs ->
  misses_required
    (build_cfgs (reverse_configs configs) (header_cells input_sheet)) = true ->
  exists miss miss_configs,
    sheet_body configs (name, input_sheet) w
    = (Ok tt, after w [SheetSkipped name miss_configs] (output_workbook w))
    /\ Forall2 (fun key header => configs_get configs key = Ok header)
         miss miss_configs
    /\ NoDup miss
    /\ miss <> []
    /\ forall key,
         key ∈ miss
         <-> key ∈ REQUIRED_CONFIGS
             /\ build_cfgs (reverse_configs configs)
                  (header_cells input_sheet) !! key = None.
Proof.
  intros Hconf Hmiss.
  destruct (sheet_body_skipped configs name input_sheet w Hconf Hmiss)
    as (miss_configs & Hbody & Hrel).
  eexists _, miss_configs. split; [exact Hbody|]. split; [exact Hrel|].
  split; [apply NoDup_elements|].
  split; [by apply missing_keys_not_empty | apply missing_keys].
Qed.

Lemma unresolved_sheet_is_skipped_witness :
  exists miss miss_configs,
    sheet_body Sample.configs
      ("Sheet1", [[CStr "Source"; CStr "Destination"; CStr "Service"; CStr "Add"]])
      initial
    = (Ok tt, after initial [SheetSkipped "Sheet1" miss_configs]
                (output_workbook initial))
    /\ Forall2 (fun key header => configs_get Sample.configs key = Ok header)
         miss miss_configs
    /\ NoDup miss
    /\ miss <> []
    /\ forall key,
         key ∈ miss
         <-> key ∈ REQUIRED_CONFIGS
             /\ build_cfgs (reverse_configs Sample.configs)
                  (header_cells
                     [[CStr "Source"; CStr "Destination"; CStr "Service";
                       CStr "Add"]]) !! key = None.
Proof.
  apply (unresolved_sheet_is_skipped Sample.configs "Sheet1"
           [[CStr "Source"; CStr "Destination"; CStr "Service"; CStr "Add"]]
           initial).
  - exact sample_configured.
  - reflexivity.
Defined.

(** ** The saved file *)









(** ** A run in which no sheet passes the header check *)






(** ** Files that cannot be opened *)

(** X14.  When [load_workbook] raises for the first input file, whatever
    the exception, the [finally] clause closes a variable that was never
    bound: the run ends with [UnboundLocalError], which takes the place of
    an exception that the [except] clause did not catch, no later file is
    opened and nothing is saved.  The error of the file is printed only when
    it is [InvalidFileException]. *)
Theorem unopened_first_file_aborts
    (load_workbook : string -> load_result) (configs : config)
    (file_path : string) (others : list string) (output : option string) :
  validate configs (file_path :: others) output = [] ->
  (forall sheets, load_workbook file_path <> Loaded sheets) ->
  convert_excels load_workbook configs (file_path :: others) output initial
  = (Raise (UnboundLocalError "input_workbook"),
     after initial
       (ProcessingFile file_path
        :: match load_workbook file_path with
           | InvalidFile => [FileError file_path]
           | _ => []
           end)
       []).
Proof.
  intros Hval Hload. unfold convert_excels. rewrite Hval. simpl.
  unfold file_body. destruct (load_workbook file_path) as [sheets| |e].
  - by destruct (Hload sheets).
  - reflexivity.
  - reflexivity.
Qed.

Lemma unopened_first_file_aborts_witness :
  convert_excels corrupt_workbooks Sample.configs ["a.xlsx"; "b.xlsx"]
    (Some "out.xlsx") initial
  = (Raise (UnboundLocalError "input_workbook"),
     after initial
       (ProcessingFile "a.xlsx"
        :: match corrupt_workbooks "a.xlsx" with
           | InvalidFile => [FileError "a.xlsx"]
           | _ => []
           end)
       []).
Proof.
  apply (unopened_first_file_aborts corrupt_workbooks Sample.configs "a.xlsx"
           ["b.xlsx"] (Some "out.xlsx")).
  - vm_compute. reflexivity.
  - intros sheets. discriminate.
Defined.

(** X15.  Once a workbook has been loaded, files for which [load_workbook]
    raises [InvalidFileException] are only reported: each prints its two
    lines, the loop goes on to the next file, and the output workbook is
    left as it is. *)
Theorem invalid_files_after_a_workbook
    (load_workbook : string -> load_result) (configs : config)
    (files : list string) (w : world) :
  input_workbook_bound w = true ->
  Forall (fun file_path => load_workbook file_path = InvalidFile) files ->
  for_each (file_body load_workbook configs) files w
  = (Ok tt, after w (flat_map invalid_lines files) (output_workbook w)).
Proof.
  intros Hbound Hfiles. revert w Hbound.
  induction Hfiles as [|file_path files Hload _ IH]; intros w Hbound.
  - simpl. unfold mret, M_ret. by rewrite after_nil.
  - simpl.
    rewrite (bind_M_Ok _ _ w (after w (invalid_lines file_path) (output_workbook w)) tt).
    + rewrite IH by done. by rewrite after_after.
    + unfold file_body. rewrite Hload.
      unfold mbind, M_bind, print, close_input_workbook, after. simpl.
      rewrite Hbound. by rewrite <- app_assoc.
Qed.

Lemma invalid_files_after_a_workbook_witness :
  for_each (file_body no_workbooks Sample.configs) ["a.xls"; "b.xls"] one_loaded
  = (Ok tt,
     after one_loaded (flat_map invalid_lines ["a.xls"; "b.xls"])
       (output_workbook one_loaded)).
Proof.
  apply (invalid_files_after_a_workbook no_workbooks Sample.configs
           ["a.xls"; "b.xls"] one_loaded).
  - reflexivity.
  - repeat constructor.
Defined.

(** X30.  Once a workbook has been loaded, a file for which [load_workbook]
    raises an exception other than [InvalidFileException] ends the run: the
    files before it that raised [InvalidFileException] have been reported,
    the file itself prints its first line only, the exception leaves the
    loop through [finally], and the files after it are never opened. *)
Theorem uncaught_load_error_stops_the_run
    (load_workbook : string -> load_result) (configs : config)
    (before : list string) (file_path : string) (rest : list string)
    (e : exn) (w : world) :
  input_workbook_bound w = true ->
  Forall (fun file_path => load_workbook file_path = InvalidFile) before ->
  load_workbook file_path = LoadError e ->
  for_each (file_body load_workbook configs) (before ++ file_path :: rest) w
  = (Raise e,
     after w (flat_map invalid_lines before ++ [ProcessingFile file_path])
       (output_workbook w)).
Proof.
  intros Hbound Hbefore Hload. revert w Hbound.
  induction Hbefore as [|file files Hinvalid _ IH]; intros w Hbound.
  - simpl. apply bind_M_Raise.
    unfold file_body. rewrite Hload.
    unfold mbind, M_bind, print, close_input_workbook, lift, after. simpl.
    by rewrite Hbound.
  - simpl.
    rewrite (bind_M_Ok _ _ w (after w (invalid_lines file) (output_workbook w)) tt).
    + rewrite IH by done. rewrite after_after. cbn [flat_map].
      by rewrite app_assoc.
    + unfold file_body. rewrite Hinvalid.
      unfold mbind, M_bind, print, close_input_workbook, after. simpl.
      rewrite Hbound. by rewrite <- app_assoc.
Qed.

Lemma uncaught_load_error_stops_the_run_witness :
  for_each (file_body second_corrupt Sample.configs) ["a.xls"; "b.xlsx"; "c.xlsx"]
    one_loaded
  = (Raise (OtherException "BadZipFile"),
     after one_loaded
       (flat_map invalid_lines ["a.xls"] ++ [ProcessingFile "b.xlsx"])
       (output_workbook one_loaded)).
Proof.
  apply (uncaught_load_error_stops_the_run second_corrupt Sample.configs
           ["a.xls"] "b.xlsx" ["c.xlsx"] (OtherException "BadZipFile") one_loaded).
  - reflexivity.
  - repeat constructor.
  - reflexivity.
Defined.

(** * Further properties of the values *)

Lemma tag_port_truthy (srv : string) :
  Py.truthy srv = true -> Py.truthy (tag_port srv) = true.
Proof. intros H. unfold tag_port. by destruct (Py.isnumeric srv). Qed.

Lemma re_split_delimiters (val : string) :
  Py.all_chars Py.delimiter val = true ->
  Forall (fun f => f = EmptyString) (Py.re_split val).
Proof.
  induction val as [|c s IH]; simpl.
  - intros _. by repeat constructor.
  - intros [Hc Hs]%andb_true_iff. rewrite Hc. constructor; [done | by apply IH].
Qed.

(** X16.  No fragment of the service text is empty: the [if srv] filter
    drops the empty pieces of the split before they are tagged and joined. *)
Theorem service_fragment_not_empty (val f : string) :
  f ∈ service_fragments val -> Py.truthy f = true.
Proof.
  unfold service_fragments. rewrite list_elem_of_In, in_map_iff.
  intros (g & <- & Hg). apply filter_In in Hg as [_ Hg].
  by apply tag_port_truthy.
Qed.

Lemma service_fragment_not_empty_witness :
  Py.truthy "TCP 443" = true.
Proof.
  apply (service_fragment_not_empty ",80,,443," "TCP 443").
  simpl. right. by left.
Defined.

(** X17.  A service cell that holds nothing but commas and newlines is not
    blank for the row loop, yet it yields no fragment: its joined text is
    empty. *)
Theorem delimiters_only_service (val : string) :
  Py.all_chars Py.delimiter val = true ->
  Py.join "; " (service_fragments val) = EmptyString.
Proof.
  intros H. unfold service_fragments.
  assert (List.filter Py.truthy (Py.re_split val) = []) as ->; [|done].
  induction (re_split_delimiters val H) as [|f fs -> _ IH]; [done|].
  simpl. exact IH.
Qed.

Lemma delimiters_only_service_witness :
  Py.truthy (safe_strip (CStr ",,")) = true
  /\ Py.join "; " (service_fragments (safe_strip (CStr ",,"))) = EmptyString.
Proof.
  split; [reflexivity|].
  apply (delimiters_only_service (safe_strip (CStr ",,"))). reflexivity.
Defined.

Lemma replace_from_absent (old new s : string) :
  contains old s = false -> Py.replace_from old new 0 s = s.
Proof.
  induction s as [|c s IH]; [done|].
  cbn [contains Py.replace_from]. intros [Hp Hs]%orb_false_iff.
  rewrite Hp. by rewrite IH.
Qed.

Lemma replace_absent (old new s : string) :
  Py.truthy old = true -> contains old s = false -> Py.replace old new s = s.
Proof.
  intros Ht Hc. destruct old as [|c old]; [discriminate|].
  unfold Py.replace. by apply replace_from_absent.
Qed.

(** X18.  Substitution rules whose patterns are not empty and do not occur
    in the service text leave it as it is. *)
Theorem rules_without_match (rules : list (string * string)) (srv : string) :
  Forall (fun rule => Py.truthy rule.1 = true /\ contains rule.1 srv = false) rules ->
  apply_rules rules srv = srv.
Proof.
  unfold apply_rules. induction 1 as [|rule rules [Ht Hc] _ IH]; [done|].
  simpl. by rewrite replace_absent.
Qed.

Lemma rules_without_match_witness :
  apply_rules [("TCP 443", "https"); ("TCP 80", "http")] "TCP 22; UDP 53"
  = "TCP 22; UDP 53".
Proof.
  apply (rules_without_match [("TCP 443", "https"); ("TCP 80", "http")]
           "TCP 22; UDP 53").
  repeat constructor.
Defined.

(** * Further properties of cell normalisation *)

Lemma all_space_lstrip (s : string) :
  Py.all_chars Py.isspace (Py.lstrip s) = Py.all_chars Py.isspace s.
Proof.
  induction s as [|c s IH]; simpl; [done|].
  destruct (Py.isspace c) eqn:E; simpl; [done | by rewrite E].
Qed.

Lemma rstrip_empty (s : string) :
  Py.rstrip s = EmptyString <-> Py.all_chars Py.isspace s = true.
Proof.
  induction s as [|c s IH]; simpl; [done|].
  destruct (Py.rstrip s) as [|d r] eqn:E.
  - destruct (Py.isspace c); simpl; [|done].
    split; [intros _; by apply IH | done].
  - split; [done|]. intros [_ H]%andb_true_iff. by apply IH in H.
Qed.

Lemma strip_empty (s : string) :
  Py.strip s = EmptyString <-> Py.all_chars Py.isspace s = true.
Proof. unfold Py.strip. by rewrite rstrip_empty, all_space_lstrip. Qed.

Lemma pretty_N_go_all (p : ascii -> bool) (x : N) (s : string) :
  (forall d, p (pretty_N_char d) = true) ->
  Py.all_chars p s = true -> Py.all_chars p (pretty_N_go x s) = true.
Proof.
  intros Hp. revert s. induction (N.lt_wf_0 x) as [x _ IH]; intros s Hs.
  assert (x = 0 \/ 0 < x)%N as [->|Hpos] by lia.
  - by rewrite pretty_N_go_0.
  - rewrite pretty_N_go_step by done. apply IH.
    + by apply N.div_lt.
    + simpl. by rewrite Hp, Hs.
Qed.

Lemma pretty_N_go_truthy (x : N) (s : string) :
  Py.truthy s = true -> Py.truthy (pretty_N_go x s) = true.
Proof.
  revert s. induction (N.lt_wf_0 x) as [x _ IH]; intros s Hs.
  assert (x = 0 \/ 0 < x)%N as [->|Hpos] by lia.
  - by rewrite pretty_N_go_0.
  - rewrite pretty_N_go_step by done. apply IH; [by apply N.div_lt | done].
Qed.

Lemma pretty_pos_truthy (p : positive) : Py.truthy (pretty (N.pos p)) = true.
Proof.
  unfold pretty, pretty_N. simpl.
  rewrite pretty_N_go_step by lia. by apply pretty_N_go_truthy.
Qed.

Lemma str_int_truthy (n : Z) : Py.truthy (Py.str_int n) = true.
Proof.
  unfold Py.str_int. destruct n as [|p|p]; [done| |done].
  apply pretty_pos_truthy.
Qed.

Lemma pretty_N_char_no_space (d : N) :
  negb (Py.isspace (pretty_N_char d)) = true.
Proof. unfold pretty_N_char. by repeat case_match. Qed.

Lemma str_int_no_space (n : Z) :
  Py.all_chars (fun c => negb (Py.isspace c)) (Py.str_int n) = true.
Proof.
  assert (forall p, Py.all_chars (fun c => negb (Py.isspace c))
                      (pretty (N.pos p)) = true) as Hpos.
  { intros p. unfold pretty, pretty_N. simpl.
    apply pretty_N_go_all; [apply pretty_N_char_no_space | done]. }
  unfold Py.str_int. destruct n as [|p|p]; [done|apply Hpos|].
  change (pretty (Z.neg p)) with ("-" +:+ pretty (N.pos p)).
  simpl. apply Hpos.
Qed.

Lemma rstrip_no_space (s : string) :
  Py.all_chars (fun c => negb (Py.isspace c)) s = true -> Py.rstrip s = s.
Proof.
  induction s as [|c s IH]; simpl; [done|].
  intros [Hc Hs]%andb_true_iff. rewrite (IH Hs).
  destruct s; [|done]. by apply negb_true_iff in Hc as ->.
Qed.

Lemma strip_no_space (s : string) :
  Py.all_chars (fun c => negb (Py.isspace c)) s = true -> Py.strip s = s.
Proof.
  intros H. unfold Py.strip.
  assert (Py.lstrip s = s) as ->; [|by apply rstrip_no_space].
  destruct s as [|c s]; simpl in *; [done|].
  apply andb_true_iff in H as [Hc _]. by apply negb_true_iff in Hc as ->.
Qed.

Lemma rstrip_rstrip (s : string) : Py.rstrip (Py.rstrip s) = Py.rstrip s.
Proof.
  induction s as [|c s IH]; simpl; [done|].
  destruct (Py.rstrip s) as [|d r] eqn:E.
  - destruct (Py.isspace c) eqn:Ec; simpl; [done | by rewrite Ec].
  - change (Py.rstrip (String c (String d r)))
      with (match Py.rstrip (String d r) with
            | EmptyString =>
                if Py.isspace c then EmptyString else String c EmptyString
            | t => String c t
            end).
    by rewrite IH.
Qed.

Lemma lstrip_head (s : string) :
  Py.lstrip s = EmptyString
  \/ exists c t, Py.lstrip s = String c t /\ Py.isspace c = false.
Proof.
  induction s as [|c s IH]; simpl; [by left|].
  destruct (Py.isspace c) eqn:E; [done|]. right. by exists c, s.
Qed.

Lemma rstrip_head (c : ascii) (s : string) :
  Py.isspace c = false -> exists t, Py.rstrip (String c s) = String c t.
Proof.
  intros E. simpl. destruct (Py.rstrip s) as [|d r].
  - rewrite E. by eexists.
  - by eexists.
Qed.

Lemma strip_strip (s : string) : Py.strip (Py.strip s) = Py.strip s.
Proof.
  unfold Py.strip.
  assert (Py.lstrip (Py.rstrip (Py.lstrip s)) = Py.rstrip (Py.lstrip s)) as ->;
    [|apply rstrip_rstrip].
  destruct (lstrip_head s) as [->|(c & t & -> & E)]; [done|].
  destruct (rstrip_head c t E) as [u ->]. simpl. by rewrite E.
Qed.

Lemma other_text_stripped (text : string) :
  other_text text = true -> Py.truthy text = true /\ Py.strip text = text.
Proof.
  unfold other_text. intros [Ht He]%andb_true_iff. by apply String.eqb_eq in He.
Qed.

Lemma strip_safe_strip (c : cell) : Py.strip (safe_strip c) = safe_strip c.
Proof.
  destruct c as [|t|n|[|]|[|] text wf]; simpl; try done.
  - apply strip_strip.
  - destruct (n =? 0)%Z; simpl; [done|]. apply strip_no_space, str_int_no_space.
  - by apply other_text_stripped.
Qed.

(** X19.  The cells that count as blank are exactly the empty cell, the
    integer 0, the boolean false, the texts made of white space only, and
    the cells of another type whose truth value is false (the float 0.0, the
    zero duration); every other cell has a normalised text that is not
    empty. *)
Theorem safe_strip_blank_iff (c : cell) :
  safe_strip c = EmptyString <->
  c = CNone \/ c = CInt 0 \/ c = CBool false
  \/ (exists t, c = CStr t /\ Py.all_chars Py.isspace t = true)
  \/ (exists text wf, c = COther false text wf).
Proof.
  split.
  - destruct c as [|t|n|[|]|[|] text wf]; simpl; intros H.
    + by left.
    + do 3 right. left. exists t. split; [done|]. by apply strip_empty.
    + destruct (n =? 0)%Z eqn:E; simpl in H.
      * right. left. by apply Z.eqb_eq in E as ->.
      * pose proof (str_int_truthy n) as Ht. by rewrite H in Ht.
    + discriminate.
    + right. right. by left.
    + destruct (other_text_stripped text wf) as [Ht _]. by rewrite H in Ht.
    + do 4 right. by exists text, wf.
  - intros [->|[->|[->|[(t & -> & H)|(text & wf & ->)]]]]; simpl; try done.
    by apply strip_empty.
Qed.

(** X20.  A key whose configured header text starts or ends with white
    space is never bound to a column, since the cells are compared after
    [safe_strip] and the configured text as it is; when the key is a required
    one, no sheet passes the header check. *)
Theorem padded_header_is_never_resolved
    (configs : config) (input_sheet : sheet) (key text : string) :
  NoDup (headers configs).*1 ->
  (key, text) ∈ headers configs ->
  Py.strip text <> text ->
  build_cfgs (reverse_configs configs) (header_cells input_sheet) !! key = None
  /\ (key ∈ REQUIRED_CONFIGS ->
      misses_required
        (build_cfgs (reverse_configs configs) (header_cells input_sheet)) = true).
Proof.
  intros Hnd Hin Hpad.
  assert (build_cfgs (reverse_configs configs) (header_cells input_sheet) !! key
          = None) as Hnone.
  { destruct (build_cfgs _ _ !! key) as [idx|] eqn:E; [|done].
    unfold build_cfgs in E.
    apply foldl_bind_column_Some in E as [E|(t & Hcell & Hrev)];
      [by rewrite lookup_empty in E|].
    apply elem_of_header_cells in Hcell as (row & c & _ & _ & <-).
    apply reverse_configs_Some in Hrev.
    pose proof (config_key_unique _ _ _ _ Hnd Hrev Hin) as <-.
    destruct Hpad. apply strip_safe_strip. }
  split; [done|]. intros Hreq.
  apply not_false_iff_true. intros Hres.
  apply misses_required_false in Hres.
  apply Hres, elem_of_dom in Hreq as [idx Hsome].
  by rewrite Hnone in Hsome.
Qed.

Lemma padded_header_is_never_resolved_witness :
  build_cfgs (reverse_configs padded) (header_cells [Sample.header_row]) !! "SRC"
  = None
  /\ ("SRC" ∈ REQUIRED_CONFIGS ->
      misses_required
        (build_cfgs (reverse_configs padded) (header_cells [Sample.header_row]))
      = true).
Proof.
  apply (padded_header_is_never_resolved padded [Sample.header_row] "SRC" "Source ").
  - simpl. repeat constructor; rewrite ?elem_of_cons, ?elem_of_nil;
      intuition discriminate.
  - simpl. by left.
  - discriminate.
Defined.

(** * Further properties of the script around [convert_excels] *)

Lemma prefix_empty (s : string) : String.prefix EmptyString s = true.
Proof. by destruct s. Qed.

Lemma prefix_char (c d : ascii) (s : string) :
  String.prefix (String c EmptyString) (String d s) = Ascii.eqb c d.
Proof.
  cbn [String.prefix]. destruct (ascii_dec c d) as [->|Hne].
  - by rewrite prefix_empty, Ascii.eqb_refl.
  - symmetry. by apply Ascii.eqb_neq.
Qed.

Lemma contains_char_cons (c d : ascii) (s : string) :
  contains (String c EmptyString) (String d s)
  = Ascii.eqb c d || contains (String c EmptyString) s.
Proof.
  simpl. destruct (ascii_dec c d) as [->|Hne].
  - by rewrite prefix_empty, Ascii.eqb_refl.
  - apply Ascii.eqb_neq in Hne. by rewrite Hne.
Qed.

Lemma contains_char_app (c : ascii) (s t : string) :
  contains (String c EmptyString) (s +:+ t)
  = contains (String c EmptyString) s || contains (String c EmptyString) t.
Proof.
  induction s as [|d s IH].
  - simpl. by destruct t.
  - change (String d s +:+ t) with (String d (s +:+ t)).
    by rewrite !contains_char_cons, IH, orb_assoc.
Qed.

Lemma replace_colon (s : string) : contains ":" (Py.replace ":" "_" s) = false.
Proof.
  unfold Py.replace. induction s as [|d s IH]; [done|].
  cbn [Py.replace_from String.length Nat.sub].
  destruct (String.prefix ":" (String d s)) eqn:E.
  - change ("_" +:+ ?x) with (String "_" x). by rewrite contains_char_cons, IH.
  - rewrite contains_char_cons, IH, orb_false_r. by rewrite prefix_char in E.
Qed.

Lemma truthy_app_cons (s : string) (c : ascii) (t : string) :
  Py.truthy (s +:+ String c t) = true.
Proof. by destruct s. Qed.

(** X21.  The name made for the output file is never empty, so the output
    check of [convert_excels] passes for it, and it holds a colon only when
    the extension does: the colons of the time of day are replaced. *)
Theorem generated_name_is_usable (isoformat ext : string) :
  output_truthy (Some (generate_filename isoformat ext)) = true
  /\ contains ":" (generate_filename isoformat ext) = contains ":" ext.
Proof.
  unfold generate_filename. split.
  - simpl. apply truthy_app_cons.
  - rewrite contains_char_app, replace_colon.
    change ("." +:+ ext) with (String "." ext). by rewrite contains_char_cons.
Qed.

Lemma get_configs_unreadable (config_path : string) (file : config_file) :
  (forall configs, file <> Parsed configs) ->
  exists message, get_configs config_path file = (no_configs, [message]).
Proof.
  intros Hbad. destruct file as [| |e|configs]; simpl; try by eexists.
  by destruct (Hbad configs).
Qed.

Lemma convert_excels_rejected (load_workbook : string -> load_result)
    (configs : config) (inputs : list string) (output : option string)
    (msg : string) :
  msg ∈ validate configs inputs output ->
  convert_excels load_workbook configs inputs output initial
  = (Ok tt, after initial [ErrorLines (validate configs inputs output)] []).
Proof.
  intros Hin. unfold convert_excels.
  destruct (validate configs inputs output) as [|m ms]; [|done].
  by apply elem_of_nil in Hin.
Qed.

Lemma main_printed (env : environment) :
  printed (main env)
  = ("Current Directory: " +:+ env_cwd env)
      :: (get_configs CONFIG_PATH (env_config env)).2.
Proof. reflexivity. Qed.

Lemma main_converted (env : environment) :
  converted (main env)
  = convert_excels (env_load env) (get_configs CONFIG_PATH (env_config env)).1
      (get_files (env_glob env) (env_basename env) EXTS)
      (Some (generate_filename (env_now env) "xlsx")) initial.
Proof. reflexivity. Qed.

Lemma main_prompted (env : environment) :
  prompted (main env)
  = match (converted (main env)).1 with Ok _ => true | Raise _ => false end.
Proof. reflexivity. Qed.

(** X22.  When [config.json] cannot be read, whatever the reason, the run
    prints the reason, then the configuration error of [convert_excels], and
    ends at the closing prompt: no file is opened and nothing is saved. *)
Theorem unreadable_config_stops_the_run (env : environment) :
  (forall configs, env_config env <> Parsed configs) ->
  exists message rest,
    printed (main env) = ["Current Directory: " +:+ env_cwd env; message]
    /\ converted (main env)
       = (Ok tt, after initial [ErrorLines (config_error :: rest)] [])
    /\ prompted (main env) = true.
Proof.
  intros Hbad.
  destruct (get_configs_unreadable CONFIG_PATH _ Hbad) as [message Hget].
  pose proof (validate_missing no_configs
                (get_files (env_glob env) (env_basename env) EXTS)
                (Some (generate_filename (env_now env) "xlsx")) "SRC"
                (proj1 required_keys) (lookup_empty _)) as Hval.
  assert (converted (main env)
          = (Ok tt,
             after initial
               [ErrorLines
                  (validate no_configs
                     (get_files (env_glob env) (env_basename env) EXTS)
                     (Some (generate_filename (env_now env) "xlsx")))] []))
    as Hrun.
  { rewrite main_converted, Hget. cbn [fst].
    apply (convert_excels_rejected _ _ _ _ config_error).
    rewrite Hval. by left. }
  eexists message, _. split; [|split].
  - by rewrite main_printed, Hget.
  - rewrite Hrun, Hval. reflexivity.
  - by rewrite main_prompted, Hrun.
Qed.

Lemma unreadable_config_stops_the_run_witness :
  exists message rest,
    printed (main (Folder.env JSONDecodeError Folder.get_fullpath_with_ext))
    = ["Current Directory: "
       +:+ env_cwd (Folder.env JSONDecodeError Folder.get_fullpath_with_ext);
       message]
    /\ converted (main (Folder.env JSONDecodeError Folder.get_fullpath_with_ext))
       = (Ok tt, after initial [ErrorLines (config_error :: rest)] [])
    /\ prompted (main (Folder.env JSONDecodeError Folder.get_fullpath_with_ext))
       = true.
Proof.
  apply (unreadable_config_stops_the_run
           (Folder.env JSONDecodeError Folder.get_fullpath_with_ext)).
  intros configs. discriminate.
Defined.

Lemma validate_no_inputs (configs : config) (output : option string) :
  inputs_error ∈ validate configs [] output.
Proof.
  unfold validate. apply elem_of_app. right. apply elem_of_app. left. by left.
Qed.

Lemma elem_of_get_files (glob : string -> list string)
    (basename : string -> string) (exts : list string) (file : string) :
  file ∈ get_files glob basename exts <->
  (exists ext, ext ∈ exts /\ file ∈ glob ext)
  /\ Py.startswith "~$" (basename file) = false.
Proof.
  unfold get_files, filter_noncache_file.
  rewrite list_elem_of_In, filter_In, in_concat, negb_true_iff.
  split; intros [(x & Hx & Hfile) Hlock]; (split; [|done]).
  - apply in_map_iff in Hx as (ext & <- & Hext).
    exists ext. by rewrite !list_elem_of_In.
  - exists (glob x). split; [apply in_map | ]; by apply list_elem_of_In.
Qed.

(** X23.  When the directory holds no workbook but lock files (names that
    start with [~$]), or no workbook at all, the list of inputs is empty and
    the run stops at the checks of [convert_excels] with the error of the
    missing inputs: no file is opened and nothing is saved. *)
Theorem lock_files_are_no_inputs (env : environment) :
  (forall ext file,
     ext ∈ EXTS -> file ∈ env_glob env ext ->
     Py.startswith "~$" (env_basename env file) = true) ->
  exists error_msg,
    converted (main env) = (Ok tt, after initial [ErrorLines error_msg] [])
    /\ inputs_error ∈ error_msg.
Proof.
  intros Hlock. rewrite main_converted.
  assert (get_files (env_glob env) (env_basename env) EXTS = []) as ->.
  { destruct (get_files _ _ _) as [|file files] eqn:E; [done|].
    assert (file ∈ get_files (env_glob env) (env_basename env) EXTS) as Hin
      by (rewrite E; by left).
    apply elem_of_get_files in Hin as [(ext & Hext & Hfile) Hno].
    by rewrite (Hlock ext file Hext Hfile) in Hno. }
  eexists. split; [|apply validate_no_inputs].
  by apply (convert_excels_rejected _ _ _ _ inputs_error), validate_no_inputs.
Qed.

Lemma lock_files_are_no_inputs_witness :
  exists error_msg,
    converted (main (Folder.env (Parsed Sample.configs) Folder.only_lock_files))
    = (Ok tt, after initial [ErrorLines error_msg] [])
    /\ inputs_error ∈ error_msg.
Proof.
  apply (lock_files_are_no_inputs
           (Folder.env (Parsed Sample.configs) Folder.only_lock_files)).
  intros ext file Hext Hfile. simpl in *.
  apply elem_of_cons in Hext as [->|Hext];
    [|apply list_elem_of_singleton in Hext as ->];
    apply list_elem_of_singleton in Hfile as ->; reflexivity.
Defined.

(** ** The files that are opened *)

Lemma opens_only_bind {A B : Type} (ok : string -> Prop) (m : M A) (f : A -> M B) :
  opens_only ok m -> (forall a, opens_only ok (f a)) -> opens_only ok (m ≫= f).
Proof.
  intros Hm Hf w Hw. unfold mbind, M_bind. specialize (Hm w Hw).
  destruct (m w) as [[a|e] w']; simpl in *; [|done].
  by apply Hf.
Qed.

Lemma opens_only_for_each {A : Type} (ok : string -> Prop)
    (body : A -> M unit) (l : list A) :
  Forall (fun x => opens_only ok (body x)) l -> opens_only ok (for_each body l).
Proof.
  induction 1 as [|x l Hx _ IH]; simpl; [by intros w Hw|].
  apply opens_only_bind; [done | by intros _].
Qed.

Lemma opens_only_keeps {A : Type} (ok : string -> Prop) (m : M A) :
  (forall w, loaded (m w).2 = loaded w) -> opens_only ok m.
Proof. intros H w Hw. by rewrite H. Qed.

Lemma opens_only_row_step (ok : string -> Prop) (configs : config)
    (cfgs : gmap string nat) (item : nat * list cell) :
  opens_only ok (row_step configs cfgs item).
Proof.
  unfold row_step. apply opens_only_bind; [by apply opens_only_keeps|].
  intros [out| |reasons]; by apply opens_only_keeps.
Qed.

Lemma opens_only_sheet_body (ok : string -> Prop) (configs : config)
    (item : string * sheet) :
  opens_only ok (sheet_body configs item).
Proof.
  unfold sheet_body. destruct (misses_required _).
  - apply opens_only_bind; [by apply opens_only_keeps|].
    intros ?. by apply opens_only_keeps.
  - apply opens_only_bind; [by apply opens_only_keeps | intros _].
    apply opens_only_bind; [by apply opens_only_keeps | intros _].
    apply opens_only_for_each, Forall_forall. intros ? _.
    apply opens_only_row_step.
Qed.

Lemma opens_only_close (ok : string -> Prop) : opens_only ok close_input_workbook.
Proof.
  apply opens_only_keeps. intros w. unfold close_input_workbook.
  by destruct (input_workbook_bound w).
Qed.

Lemma opens_only_file_body (ok : string -> Prop)
    (load_workbook : string -> load_result) (configs : config) (file_path : string) :
  (forall sheets, load_workbook file_path = Loaded sheets -> ok file_path) ->
  opens_only ok (file_body load_workbook configs file_path).
Proof.
  intros Hok. unfold file_body.
  apply opens_only_bind; [by apply opens_only_keeps | intros _].
  destruct (load_workbook file_path) as [sheets| |e].
  - apply opens_only_bind.
    + intros w Hw. simpl. apply Forall_app. split; [done|].
      apply Forall_singleton. by apply (Hok sheets).
    + intros _. apply opens_only_bind; [|intros _; apply opens_only_close].
      apply opens_only_for_each, Forall_forall. intros ? _.
      apply opens_only_sheet_body.
  - apply opens_only_bind; [by apply opens_only_keeps|].
    intros _. apply opens_only_close.
  - apply opens_only_bind; [apply opens_only_close|].
    intros _. by apply opens_only_keeps.
Qed.

Lemma opens_only_convert_excels (ok : string -> Prop)
    (load_workbook : string -> load_result) (configs : config)
    (inputs : list string) (output : option string) :
  Forall (fun file_path =>
            forall sheets, load_workbook file_path = Loaded sheets -> ok file_path)
         inputs ->
  opens_only ok (convert_excels load_workbook configs inputs output).
Proof.
  intros Hinputs. unfold convert_excels.
  destruct (validate configs inputs output) as [|m ms];
    [|by apply opens_only_keeps].
  apply opens_only_bind.
  2: { intros _. apply opens_only_keeps. intros w. unfold save.
       by destruct (output_workbook w). }
  apply opens_only_for_each. eapply Forall_impl; [exact Hinputs|].
  intros file_path Hok. by apply opens_only_file_body.
Qed.

(** X24.  The only workbooks a conversion opens are files of its list of
    inputs that [load_workbook] accepts. *)
Theorem opened_files_are_inputs
    (load_workbook : string -> load_result) (configs : config)
    (inputs : list string) (output : option string) (file_path : string) :
  file_path ∈ loaded (convert_excels load_workbook configs inputs output initial).2 ->
  file_path ∈ inputs /\ exists sheets, load_workbook file_path = Loaded sheets.
Proof.
  intros Hin.
  pose proof (opens_only_convert_excels
                (fun f => f ∈ inputs /\ exists sheets, load_workbook f = Loaded sheets)
                load_workbook configs inputs output) as Hok.
  eapply Forall_forall in Hok; [exact Hok| | |exact Hin].
  - apply Forall_forall. intros f Hf sheets Hload. split; [done | by exists sheets].
  - constructor.
Qed.

Lemma opened_files_are_inputs_witness :
  "a.xlsx" ∈ ["a.xlsx"; "b.xlsx"]
  /\ exists sheets, mixed_workbooks "a.xlsx" = Loaded sheets.
Proof.
  apply (opened_files_are_inputs mixed_workbooks Sample.configs
           ["a.xlsx"; "b.xlsx"] (Some "out.xlsx") "a.xlsx").
  vm_compute. apply list_elem_of_here.
Defined.

(** X25.  A run of the script never opens a lock file: every workbook it
    opens was found under one of the two extensions and has a name that does
    not start with [~$]. *)
Theorem lock_files_are_never_opened (env : environment) (file_path : string) :
  file_path ∈ loaded (converted (main env)).2 ->
  Py.startswith "~$" (env_basename env file_path) = false
  /\ exists ext, ext ∈ EXTS /\ file_path ∈ env_glob env ext.
Proof.
  rewrite main_converted. intros Hin.
  pose proof (opens_only_convert_excels
                (fun f => f ∈ get_files (env_glob env) (env_basename env) EXTS)
                (env_load env) (get_configs CONFIG_PATH (env_config env)).1
                (get_files (env_glob env) (env_basename env) EXTS)
                (Some (generate_filename (env_now env) "xlsx"))) as Hok.
  eapply Forall_forall in Hok; [| | |exact Hin].
  - apply elem_of_get_files in Hok as [Hext Hno]. by split.
  - apply Forall_forall. by intros f Hf sheets _.
  - constructor.
Qed.

Lemma lock_files_are_never_opened_witness :
  Py.startswith "~$"
    (env_basename (Folder.env (Parsed Sample.configs) Folder.get_fullpath_with_ext)
       "a.xlsx") = false
  /\ exists ext,
       ext ∈ EXTS
       /\ "a.xlsx"
          ∈ env_glob (Folder.env (Parsed Sample.configs) Folder.get_fullpath_with_ext)
              ext.
Proof.
  apply (lock_files_are_never_opened
           (Folder.env (Parsed Sample.configs) Folder.get_fullpath_with_ext)
           "a.xlsx").
  vm_compute. apply list_elem_of_here.
Defined.

(** * Further properties of the log file *)

Lemma length_append (s t : string) :
  String.length (s +:+ t) = String.length s + String.length t.
Proof.
  induction s as [|c s IH]; [done|].
  change (String c s +:+ t) with (String c (s +:+ t)). simpl. by rewrite IH.
Qed.

Lemma append_assoc (s t u : string) : (s +:+ t) +:+ u = s +:+ (t +:+ u).
Proof.
  induction s as [|c s IH]; [done|].
  change ((String c s +:+ t) +:+ u) with (String c ((s +:+ t) +:+ u)).
  by rewrite IH.
Qed.

Lemma strip_from_skip (a rest : string) :
  TeeOutput.strip_from (String.length a) (a +:+ rest) = TeeOutput.strip_from 0 rest.
Proof. induction a as [|c a IH]; simpl; [by destruct rest | done]. Qed.

Lemma strip_from_plain (text rest : string) :
  no_escape text = true ->
  TeeOutput.strip_from 0 (text +:+ rest) = text +:+ TeeOutput.strip_from 0 rest.
Proof.
  induction text as [|c text IH]; [done|].
  intros [Hc Htext]%andb_true_iff. apply negb_true_iff in Hc.
  change (String c text +:+ rest) with (String c (text +:+ rest)).
  cbn [TeeOutput.strip_from]. rewrite Hc, (IH Htext). done.
Qed.

Lemma final_not_param (c : ascii) :
  TeeOutput.final_char c = true -> TeeOutput.param_char c = false.
Proof.
  unfold TeeOutput.final_char, TeeOutput.param_char, TeeOutput.between.
  intros [H1 H2]%andb_true_iff. apply Nat.leb_le in H1, H2.
  apply andb_false_iff. right. apply Nat.leb_gt. lia.
Qed.

Lemma final_not_inter (c : ascii) :
  TeeOutput.final_char c = true -> TeeOutput.inter_char c = false.
Proof.
  unfold TeeOutput.final_char, TeeOutput.inter_char, TeeOutput.between.
  intros [H1 H2]%andb_true_iff. apply Nat.leb_le in H1, H2.
  apply andb_false_iff. right. apply Nat.leb_gt. lia.
Qed.

Lemma skip_while_all (p : ascii -> bool) (s : string) (c : ascii) (rest : string) :
  Py.all_chars p s = true -> p c = false ->
  TeeOutput.skip_while p (s +:+ String c rest) = String c rest.
Proof.
  intros Hs Hc. induction s as [|d s IH]; simpl in *.
  - by rewrite Hc.
  - apply andb_true_iff in Hs as [-> Hs]. by apply IH.
Qed.

Lemma escape_tail_csi (params : string) (final : ascii) (rest : string) :
  Py.all_chars TeeOutput.param_char params = true ->
  TeeOutput.final_char final = true ->
  TeeOutput.escape_tail (String "[" (params +:+ String final rest)) = Some rest.
Proof.
  intros Hparams Hfinal. unfold TeeOutput.escape_tail.
  change (TeeOutput.single_char "[") with false.
  change (Ascii.eqb "[" "[") with true. cbv iota.
  rewrite (skip_while_all _ _ _ _ Hparams (final_not_param _ Hfinal)).
  cbn [TeeOutput.skip_while]. by rewrite (final_not_inter _ Hfinal), Hfinal.
Qed.

Lemma strip_from_escape (text rest : string) :
  TeeOutput.escape_tail text = Some rest ->
  TeeOutput.strip_from 0 (String TeeOutput.ESC text)
  = TeeOutput.strip_from (String.length text - String.length rest) text.
Proof. intros H. cbn [TeeOutput.strip_from]. by rewrite Ascii.eqb_refl, H. Qed.

Lemma strip_from_csi (params : string) (final : ascii) (rest : string) :
  Py.all_chars TeeOutput.param_char params = true ->
  TeeOutput.final_char final = true ->
  TeeOutput.strip_from 0 (TeeOutput.csi params final +:+ rest)
  = TeeOutput.strip_from 0 rest.
Proof.
  intros Hparams Hfinal. unfold TeeOutput.csi.
  set (body := String "[" (params +:+ String final EmptyString)).
  change (String TeeOutput.ESC body +:+ rest)
    with (String TeeOutput.ESC (body +:+ rest)).
  assert (body +:+ rest = String "[" (params +:+ String final rest)) as Hbody.
  { unfold body.
    change (String "[" (params +:+ String final EmptyString) +:+ rest)
      with (String "[" ((params +:+ String final EmptyString) +:+ rest)).
    by rewrite append_assoc. }
  rewrite (strip_from_escape _ rest)
    by (rewrite Hbody; by apply escape_tail_csi).
  rewrite length_append.
  replace (String.length body + String.length rest - String.length rest)
    with (String.length body) by lia.
  apply strip_from_skip.
Qed.

Lemma strip_from_nil : TeeOutput.strip_from 0 EmptyString = EmptyString.
Proof. reflexivity. Qed.

Lemma append_nil_r (s : string) : s +:+ EmptyString = s.
Proof.
  induction s as [|c s IH]; [done|].
  change (String c s +:+ EmptyString) with (String c (s +:+ EmptyString)).
  by rewrite IH.
Qed.

Lemma strip_ansi_colored_text (params : string) (final : ascii)
    (params' : string) (final' : ascii) (text : string) :
  Py.all_chars TeeOutput.param_char params = true ->
  TeeOutput.final_char final = true ->
  Py.all_chars TeeOutput.param_char params' = true ->
  TeeOutput.final_char final' = true ->
  no_escape text = true ->
  TeeOutput.strip_ansi
    (TeeOutput.csi params final +:+ text +:+ TeeOutput.csi params' final')
  = text.
Proof.
  intros Hp Hf Hp' Hf' Htext. unfold TeeOutput.strip_ansi.
  rewrite (strip_from_csi _ _ _ Hp Hf), (strip_from_plain _ _ Htext).
  rewrite <- (append_nil_r (TeeOutput.csi params' final')).
  by rewrite (strip_from_csi _ _ _ Hp' Hf'), strip_from_nil, append_nil_r.
Qed.

(** X26.  A text without the escape character goes to the log file as it
    is: [strip_ansi] removes nothing from it. *)
Theorem strip_ansi_keeps_plain_text (text : string) :
  no_escape text = true -> TeeOutput.strip_ansi text = text.
Proof.
  intros Htext. unfold TeeOutput.strip_ansi.
  rewrite <- (append_nil_r text) at 1.
  by rewrite (strip_from_plain _ _ Htext), strip_from_nil, append_nil_r.
Qed.

Lemma strip_ansi_keeps_plain_text_witness :
  TeeOutput.strip_ansi "> Sheet: [Sheet1] Skipped." = "> Sheet: [Sheet1] Skipped.".
Proof.
  apply (strip_ansi_keeps_plain_text "> Sheet: [Sheet1] Skipped.").
  reflexivity.
Defined.

(** X27.  A text wrapped in two control sequences, as [colored] wraps it in
    a colour and a reset, comes out of [strip_ansi] as the text alone,
    whatever the parameters and the final characters of the sequences. *)
Theorem strip_ansi_removes_colour
    (params : string) (final : ascii) (params' : string) (final' : ascii)
    (text : string) :
  Py.all_chars TeeOutput.param_char params = true ->
  TeeOutput.final_char final = true ->
  Py.all_chars TeeOutput.param_char params' = true ->
  TeeOutput.final_char final' = true ->
  no_escape text = true ->
  TeeOutput.strip_ansi
    (TeeOutput.csi params final +:+ text +:+ TeeOutput.csi params' final')
  = text.
Proof. apply strip_ansi_colored_text. Qed.

Lemma strip_ansi_removes_colour_witness :
  TeeOutput.strip_ansi
    (TeeOutput.csi "31" "m" +:+ "ERROR: output file is Empty"
     +:+ TeeOutput.csi "0" "m")
  = "ERROR: output file is Empty".
Proof.
  apply (strip_ansi_removes_colour "31" "m" "0" "m" "ERROR: output file is Empty");
    reflexivity.
Defined.

(** X28.  A coloured message reaches the terminal with its colour and the
    log file without it; the log line starts with the time stamp when the
    text has a character that is not white space, and has no time stamp
    otherwise. *)
Theorem write_logs_plain_text
    (timestamp : string) (params : string) (final : ascii)
    (params' : string) (final' : ascii) (text : string) (t : TeeOutput.tee) :
  Py.all_chars TeeOutput.param_char params = true ->
  TeeOutput.final_char final = true ->
  Py.all_chars TeeOutput.param_char params' = true ->
  TeeOutput.final_char final' = true ->
  no_escape text = true ->
  TeeOutput.write timestamp
    (TeeOutput.csi params final +:+ text +:+ TeeOutput.csi params' final') t
  = {| TeeOutput.terminal :=
         TeeOutput.terminal t
         +:+ (TeeOutput.csi params final +:+ text +:+ TeeOutput.csi params' final');
       TeeOutput.log_file :=
         TeeOutput.log_file t
         +:+ (if Py.all_chars Py.isspace text then text else timestamp +:+ text) |}.
Proof.
  intros Hp Hf Hp' Hf' Htext. unfold TeeOutput.write.
  rewrite (strip_ansi_colored_text _ _ _ _ _ Hp Hf Hp' Hf' Htext).
  destruct (Py.all_chars Py.isspace text) eqn:E.
  - apply strip_empty in E. by rewrite E.
  - destruct (Py.strip text) eqn:Es; [|done].
    apply strip_empty in Es. congruence.
Qed.

Lemma write_logs_plain_text_witness :
  TeeOutput.write "[2024-05-06 07:08:09.000000] "
    (TeeOutput.csi "31" "m" +:+ "ERROR: output file is Empty"
     +:+ TeeOutput.csi "0" "m")
    {| TeeOutput.terminal := EmptyString; TeeOutput.log_file := EmptyString |}
  = {| TeeOutput.terminal :=
         EmptyString
         +:+ (TeeOutput.csi "31" "m" +:+ "ERROR: output file is Empty"
              +:+ TeeOutput.csi "0" "m");
       TeeOutput.log_file :=
         EmptyString
         +:+ (if Py.all_chars Py.isspace "ERROR: output file is Empty"
              then "ERROR: output file is Empty"
              else "[2024-05-06 07:08:09.000000] "
                   +:+ "ERROR: output file is Empty") |}.
Proof.
  apply (write_logs_plain_text "[2024-05-06 07:08:09.000000] " "31" "m" "0" "m"
           "ERROR: output file is Empty");
    reflexivity.
Defined.
